(** * qiskit-community-tutorials: the notebooks' own code, embedded and checked

    The repository is a set of Jupyter notebooks.  The code cells that define
    something of the repository's own are

    - the TeachMeQ helpers [show_results], [execute_locally],
      [execute_remotely] and [new_circuit] (identical in [IBMQ_setup.ipynb]
      and [w3_01.ipynb]);
    - the [wine] data-loading helper of [vqc_feature_map_comparison.ipynb];
    - the tomography cells of the same file: the Pauli matrices, [HS_product],
      the projectors, [M], [linear_inversion_matrix] and their two-qubit
      versions, and the reconstruction of [rho_bell].

    Calls into qiskit, matplotlib, scikit-learn and [time] are oracles of an
    external world; everything the notebooks compute themselves is a Rocq
    function. *)

From Stdlib Require Import List String Ascii ZArith QArith Bool Arith Lia Lqa.
From Stdlib Require Import DecimalString Setoid Morphisms.
Import ListNotations.

Local Open Scope string_scope.
Local Open Scope list_scope.

(** ** Python effects: exceptions, output, and loops that may not end *)

Module Py.

(** An exception: the name of its class followed by the names of the
    classes it inherits from, and its message. *)
Record exn : Type := Exn { exn_mro : list string; exn_msg : string }.

Definition exn_class (e : exn) : string := hd "BaseException" (exn_mro e).

(** [isinstance(e, C)] *)
Definition isinstance (e : exn) (C : string) : bool :=
  existsb (String.eqb C) (exn_mro e).

Inductive outcome (A : Type) : Type :=
| Ret (a : A)
| Raise (e : exn).
Arguments Ret {A} a.
Arguments Raise {A} e.

(** A computation over a store [S]: [None] means the fuel of a [while]
    loop ran out before the computation ended; otherwise it returns or
    raises, and the store (with everything printed so far) is kept in both
    cases. *)
Definition M (S A : Type) : Type := S -> option (outcome A * S).

Definition ret {S A} (a : A) : M S A := fun st => Some (Ret a, st).

Definition raise {S A} (e : exn) : M S A := fun st => Some (Raise e, st).

Definition bind {S A B} (m : M S A) (k : A -> M S B) : M S B :=
  fun st =>
    match m st with
    | None => None
    | Some (Ret a, st') => k a st'
    | Some (Raise e, st') => Some (Raise e, st')
    end.

(** [try: m  except: h] with a bare [except] clause: every exception is
    caught. *)
Definition try_except {S A} (m : M S A) (h : exn -> M S A) : M S A :=
  fun st =>
    match m st with
    | None => None
    | Some (Ret a, st') => Some (Ret a, st')
    | Some (Raise e, st') => h e st'
    end.

(** [try: m  except C: h]: only instances of class [C] are caught. *)
Definition try_except_class {S A} (C : string) (m : M S A) (h : exn -> M S A)
  : M S A :=
  fun st =>
    match m st with
    | None => None
    | Some (Ret a, st') => Some (Ret a, st')
    | Some (Raise e, st') =>
        if isinstance e C then h e st' else Some (Raise e, st')
    end.

(** [for x in l: body x] *)
Fixpoint for_each {S A} (l : list A) (body : A -> M S unit) : M S unit :=
  match l with
  | [] => ret tt
  | x :: l' => bind (body x) (fun _ => for_each l' body)
  end.

(** [str(n)] for an integer. *)
Definition str_int (n : Z) : string := NilZero.string_of_int (Z.to_int n).

(** [range(n)]. *)
Definition range (n : nat) : list Z := map Z.of_nat (seq 0 n).

(** The slice [l[:n]]: a negative bound counts from the end. *)
Definition slice_to {A} (n : Z) (l : list A) : list A :=
  if (0 <=? n)%Z then firstn (Z.to_nat n) l
  else firstn (List.length l - Z.to_nat (- n)) l.

End Py.

Import Py.

Declare Scope py_scope.
Delimit Scope py_scope with py.
Notation "x <- m ;; k" := (bind m (fun x => k))
  (at level 61, m at next level, right associativity) : py_scope.
Notation "m ;;; k" := (bind m (fun _ => k))
  (at level 61, right associativity) : py_scope.
Local Open Scope py_scope.

(** ** The TeachMeQ helpers ([IBMQ_setup.ipynb], [w3_01.ipynb]) *)

Module TeachMeQ.

(** [job.status()] is an enum member of the SDK; the code only reads its
    [name]. *)
Record JobStatus : Type := mkStatus { name : string }.

(** A counts dictionary: bit strings to counts, in insertion order. *)
Definition Counts : Type := list (string * Z).

Inductive PltCall : Type :=
| Bar (xs : list Z) (heights : list Z) (align : string)
| Xticks (xs : list Z) (labels : list string)
| Show.

Section Helpers.

(** SDK objects are opaque to the notebooks. *)
Context {Circuit Backend Job Result Register : Type}.

Inductive Printed : Type :=
| PStr (s : string)
| PBackend (b : Backend)
| PStatus (s : JobStatus)
| PResult (r : Result)
| PCounts (c : Counts).

(** What a run does to the outside, in order. *)
Inductive Event : Type :=
| Print (args : list Printed)
| Draw (qc : Circuit)
| Plt (c : PltCall)
| Sleep (secs : Z).

(** The external world: what each SDK, matplotlib or [time] call answers.
    Every one of them may raise.  [job_status j n] is the answer to the
    [n]-th call of [j.status()] (counting from 0), [time_sleep s n] the
    outcome of the [n]-th [time.sleep]. *)
Record SDK : Type := {
  draw : Circuit -> outcome unit;
  plt : PltCall -> outcome unit;
  Aer_get_backend : string -> outcome Backend;
  IBMQ_backends : bool -> outcome (list Backend);
  least_busy : list Backend -> outcome Backend;
  execute : Circuit -> Backend -> option Z -> option Z -> outcome Job;
  job_status : Job -> nat -> outcome JobStatus;
  job_result : Job -> outcome Result;
  get_counts : Result -> Circuit -> outcome Counts;
  time_sleep : Z -> nat -> outcome unit;
  QuantumRegister : Z -> outcome Register;
  ClassicalRegister : Z -> outcome Register;
  QuantumCircuit : Register -> Register -> outcome Circuit
}.

(** The store of a run: the events so far, and how many times the job
    status was polled and [time.sleep] was called. *)
Record St : Type := mkSt { trace : list Event; polls : nat; sleeps : nat }.

Definition st0 : St := mkSt [] 0 0.

Definition log (e : Event) (st : St) : St :=
  mkSt (trace st ++ [e]) (polls st) (sleeps st).

Definition is_draw (e : Event) : bool :=
  match e with Draw _ => true | _ => false end.

Definition is_plot (e : Event) : bool :=
  match e with Plt _ => true | _ => false end.

(** What [n] rounds of the polling loop leave in the trace, from the round
    with counter [lapse] on; [seen] are the statuses printed in the rounds. *)
Fixpoint polling_trace (lapse : Z) (seen : list JobStatus) : list Event :=
  match seen with
  | [] => []
  | s :: seen' =>
      Print [PStr ("Status @ " ++ str_int (10 * lapse) ++ " seconds")%string]
      :: Print [PStatus s] :: Sleep 10 :: polling_trace (lapse + 1) seen'
  end.

Variable w : SDK.

(** An external call without effect on the store. *)
Definition call {A} (o : outcome A) : M St A := fun st => Some (o, st).

Definition print (args : list Printed) : M St unit :=
  fun st => Some (Ret tt, log (Print args) st).

Definition call_draw (qc : Circuit) : M St unit :=
  fun st => Some (draw w qc, log (Draw qc) st).

Definition call_plt (c : PltCall) : M St unit :=
  fun st => Some (plt w c, log (Plt c) st).

Definition status (j : Job) : M St JobStatus :=
  fun st => Some (job_status w j (polls st),
                  mkSt (trace st) (S (polls st)) (sleeps st)).

Definition sleep (secs : Z) : M St unit :=
  fun st => Some (time_sleep w secs (sleeps st),
                  mkSt (trace st ++ [Sleep secs]) (polls st) (S (sleeps st))).

(** [def show_results(D)] *)
Definition show_results (D : Counts) : M St unit :=
  call_plt (Bar (range (List.length D)) (map snd D) "center") ;;;
  call_plt (Xticks (range (List.length D)) (map fst D)) ;;;
  call_plt Show.

(** [def execute_locally(qc, draw_circuit=False)] *)
Definition execute_locally (qc : Circuit) (draw_circuit : bool) : M St unit :=
  backend_sim <- call (Aer_get_backend w "qasm_simulator") ;;
  job_sim <- call (execute w qc backend_sim None None) ;;
  result_sim <- call (job_result w job_sim) ;;
  result_counts <- call (get_counts w result_sim qc) ;;
  print [PStr "simulation: "; PResult result_sim; PCounts result_counts] ;;;
  if draw_circuit then call_draw qc
  else show_results result_counts.

(** The [while job_exp.status().name != 'DONE'] loop.  It returns the
    final value of [lapse]. *)
Fixpoint wait_loop (fuel : nat) (job_exp : Job) (lapse interval : Z)
  : M St Z :=
  match fuel with
  | O => fun _ => None
  | S fuel' =>
      s <- status job_exp ;;
      if negb (String.eqb (name s) "DONE") then
        print [PStr ("Status @ " ++ str_int (interval * lapse) ++ " seconds")%string] ;;;
        s' <- status job_exp ;;
        print [PStatus s'] ;;;
        sleep interval ;;;
        wait_loop fuel' job_exp (lapse + 1)%Z interval
      else ret lapse
  end.

(** The body of the [try] block of [execute_remotely]. *)
Definition remote_body (fuel : nat) (qc : Circuit) (draw_circuit : bool)
  : M St unit :=
  devices <- call (IBMQ_backends w false) ;;
  least_busy_device <- call (least_busy w devices) ;;
  print [PStr "Running on current least busy device: ";
         PBackend least_busy_device] ;;;
  job_exp <- call (execute w qc least_busy_device (Some 1024%Z) (Some 10%Z)) ;;
  _ <- wait_loop fuel job_exp 0 10 ;;
  s <- status job_exp ;;
  print [PStatus s] ;;;
  exp_result <- call (job_result w job_exp) ;;
  result_counts <- call (get_counts w exp_result qc) ;;
  print [PStr "experiment: "; PResult exp_result; PCounts result_counts] ;;;
  if negb draw_circuit then show_results result_counts else ret tt.

Definition unavailable : string := "All devices are currently unavailable.".

(** [def execute_remotely(qc, draw_circuit=False)] *)
Definition execute_remotely (fuel : nat) (qc : Circuit) (draw_circuit : bool)
  : M St unit :=
  (if draw_circuit then call_draw qc else ret tt) ;;;
  try_except (remote_body fuel qc draw_circuit)
             (fun _ => print [PStr unavailable]).

(** [def new_circuit(size)] *)
Definition new_circuit (size : Z) : M St (Register * Register * Circuit) :=
  qr <- call (QuantumRegister w size) ;;
  cr <- call (ClassicalRegister w size) ;;
  c <- call (QuantumCircuit w qr cr) ;;
  ret (qr, cr, c).

End Helpers.

Arguments Printed : clear implicits.
Arguments Event : clear implicits.
Arguments SDK : clear implicits.
Arguments St : clear implicits.

End TeachMeQ.

(** ** The [wine] helper ([vqc_feature_map_comparison.ipynb]) *)

Module Wine.

Inductive PlotEvent {R : Type} : Type :=
| Scatter (xs ys : list R)
| Title (s : string)
| PlotShow.
Arguments PlotEvent : clear implicits.

Section Wine.

(** Array elements are the floats of numpy; [wine] never computes with
    them. *)
Context {R : Type}.

(** A two-dimensional array as its rows; a label vector. *)
Definition Array : Type := list (list R).
Definition Labels : Type := list Z.

(** A fitted transformer, seen through its [transform] method. *)
Definition Transformer : Type := Array -> outcome Array.

(** scikit-learn, numpy's [append] and matplotlib, as the notebook calls
    them. *)
Record Sklearn : Type := {
  load_wine : bool -> outcome (Array * Labels);
  train_test_split :
    Array -> Labels -> Z -> Z -> outcome (Array * Array * Labels * Labels);
  StandardScaler_fit : Array -> outcome Transformer;
  PCA_fit : Z -> Array -> outcome Transformer;
  MinMaxScaler_fit : Z * Z -> Array -> outcome Transformer;
  np_append : Array -> Array -> Z -> outcome Array;
  import_matplotlib : outcome unit;
  plt_scatter : list R -> list R -> outcome unit;
  plt_title : string -> outcome unit;
  plt_show : outcome unit
}.

Definition St : Type := list (PlotEvent R).

Variable w : Sklearn.

Definition call {A} (o : outcome A) : M St A := fun st => Some (o, st).

Definition call_plot (e : PlotEvent R) (o : outcome unit) : M St unit :=
  fun st => Some (o, st ++ [e]).

Definition IndexError (msg : string) : exn :=
  Exn ["IndexError"; "LookupError"; "Exception"; "BaseException"] msg.

Definition NameError (msg : string) : exn :=
  Exn ["NameError"; "Exception"; "BaseException"] msg.

(** [a[mask, j]] for a boolean [mask]: column [j] of the rows that [mask]
    selects.  numpy raises [IndexError] when the mask and the array differ in
    length or the column does not exist. *)
Fixpoint column (j : nat) (a : Array) : option (list R) :=
  match a with
  | [] => Some []
  | row :: a' =>
      match nth_error row j, column j a' with
      | Some x, Some xs => Some (x :: xs)
      | _, _ => None
      end
  end.

Fixpoint select {A} (mask : list bool) (l : list A) : list A :=
  match mask, l with
  | b :: mask', x :: l' => if b then x :: select mask' l' else select mask' l'
  | _, _ => []
  end.

Definition mask_column (a : Array) (mask : list bool) (j : nat)
  : outcome (list R) :=
  if Nat.eqb (List.length mask) (List.length a) then
    match column j a with
    | Some col => Ret (select mask col)
    | None => Raise (IndexError "index is out of bounds for axis 1")
    end
  else Raise (IndexError "boolean index did not match indexed array").

(** [label_train == k] *)
Definition labels_eq (l : Labels) (k : Z) : list bool := map (Z.eqb k) l.

Definition matplotlib_missing : string :=
  "Matplotlib not installed. Please install it before plotting".

(** The [if plot_data:] block. *)
Definition plot (training_size : Z) (sample_train : Array)
  (label_train : Labels) : M St unit :=
  try_except_class "ImportError" (call (import_matplotlib w))
    (fun _ => raise (NameError matplotlib_missing)) ;;;
  for_each (range 3) (fun k =>
    xs <- call (mask_column sample_train (labels_eq label_train k) 0) ;;
    ys <- call (mask_column sample_train (labels_eq label_train k) 1) ;;
    call_plot (Scatter (slice_to training_size xs) (slice_to training_size ys))
      (plt_scatter w (slice_to training_size xs) (slice_to training_size ys))) ;;;
  call_plot (Title "PCA dim. reduced Wine dataset")
    (plt_title w "PCA dim. reduced Wine dataset") ;;;
  call_plot PlotShow (plt_show w).

(** [def wine(training_size, test_size, n_features, plot_data=False)] *)
Definition wine (training_size test_size n_features : Z) (plot_data : bool)
  : M St (Array * Labels * Array * Labels) :=
  dt <- call (load_wine w true) ;;
  let '(data, target) := dt in
  sp <- call (train_test_split w data target test_size 42) ;;
  let '(sample_train, sample_test, label_train, label_test) := sp in
  std_scale <- call (StandardScaler_fit w sample_train) ;;
  sample_train <- call (std_scale sample_train) ;;
  sample_test <- call (std_scale sample_test) ;;
  pca <- call (PCA_fit w n_features sample_train) ;;
  sample_train <- call (pca sample_train) ;;
  sample_test <- call (pca sample_test) ;;
  samples <- call (np_append w sample_train sample_test 0) ;;
  minmax_scale <- call (MinMaxScaler_fit w (-1, 1)%Z samples) ;;
  sample_train <- call (minmax_scale sample_train) ;;
  sample_test <- call (minmax_scale sample_test) ;;
  let sample_train := slice_to training_size sample_train in
  let label_train := slice_to training_size label_train in
  let sample_test := slice_to training_size sample_test in
  let label_test := slice_to training_size label_test in
  (if plot_data then plot training_size sample_train label_train else ret tt) ;;;
  ret (sample_train, label_train, sample_test, label_test).

End Wine.

Arguments Sklearn : clear implicits.
Arguments Array : clear implicits.
Arguments St : clear implicits.

End Wine.

(** ** The tomography cells ([vqc_feature_map_comparison.ipynb]) *)

Module Tomography.

Local Open Scope Q_scope.

(** Array entries.  The notebook's arrays hold complex floats whose values
    are all Gaussian rationals; the arithmetic is taken exact. *)
Record C : Type := mkC { re : Q; im : Q }.

Definition Ceq (a b : C) : Prop := re a == re b /\ im a == im b.

Definition Ceqb (a b : C) : bool :=
  Qeq_bool (re a) (re b) && Qeq_bool (im a) (im b).

Definition C0 : C := mkC 0 0.
Definition C1 : C := mkC 1 0.
Definition Ci : C := mkC 0 1.
Definition Chalf : C := mkC (1 # 2) 0.
Definition CZ (z : Z) : C := mkC (inject_Z z) 0.

(** The operations keep both parts in lowest terms. *)
Definition Cadd (a b : C) : C :=
  mkC (Qred (re a + re b)) (Qred (im a + im b)).
Definition Copp (a : C) : C := mkC (Qred (- re a)) (Qred (- im a)).
Definition Csub (a b : C) : C :=
  mkC (Qred (re a - re b)) (Qred (im a - im b)).
Definition Cmul (a b : C) : C :=
  mkC (Qred (re a * re b - im a * im b)) (Qred (re a * im b + im a * re b)).
Definition Cconj (a : C) : C := mkC (re a) (Qred (- im a)).
Definition Cnorm2 (a : C) : Q := re a * re a + im a * im a.
Definition Cinv (a : C) : C :=
  mkC (Qred (re a / Cnorm2 a)) (Qred (- im a / Cnorm2 a)).

Definition Vector : Type := list C.
Definition Matrix : Type := list (list C).

Definition Veq : Vector -> Vector -> Prop := Forall2 Ceq.
Definition Meq : Matrix -> Matrix -> Prop := Forall2 Veq.

Fixpoint Veqb (u v : Vector) : bool :=
  match u, v with
  | [], [] => true
  | a :: u', b :: v' => Ceqb a b && Veqb u' v'
  | _, _ => false
  end.

Fixpoint Meqb (A B : Matrix) : bool :=
  match A, B with
  | [], [] => true
  | u :: A', v :: B' => Veqb u v && Meqb A' B'
  | _, _ => false
  end.

(** *** The numpy operations the cells use *)

Definition nrows (A : Matrix) : nat := List.length A.
Definition ncols (A : Matrix) : nat := List.length (hd [] A).

Definition rectangular (A : Matrix) : bool :=
  forallb (fun r => Nat.eqb (List.length r) (ncols A)) A.

Fixpoint vadd (u v : Vector) : Vector :=
  match u, v with
  | a :: u', b :: v' => Cadd a b :: vadd u' v'
  | _, _ => []
  end.

Definition vscale (c : C) (v : Vector) : Vector := map (Cmul c) v.

(** [c * A] *)
Definition mscale (c : C) (A : Matrix) : Matrix := map (vscale c) A.

Fixpoint madd (A B : Matrix) : Matrix :=
  match A, B with
  | u :: A', v :: B' => vadd u v :: madd A' B'
  | _, _ => []
  end.

Definition msub (A B : Matrix) : Matrix := madd A (mscale (Copp C1) B).

(** [np.conj(A)] *)
Definition conj (A : Matrix) : Matrix := map (map Cconj) A.

(** [A.T] *)
Definition transpose (A : Matrix) : Matrix :=
  map (fun j => map (fun r => nth j r C0) A) (seq 0 (ncols A)).

Fixpoint dot (u v : Vector) : C :=
  match u, v with
  | a :: u', b :: v' => Cadd (Cmul a b) (dot u' v')
  | _, _ => C0
  end.

(** The row vector [r] times the matrix [B] of [n] columns. *)
Fixpoint vecmat (n : nat) (r : Vector) (B : Matrix) : Vector :=
  match r, B with
  | a :: r', b :: B' => vadd (vscale a b) (vecmat n r' B')
  | _, _ => repeat C0 n
  end.

Definition matmul (A B : Matrix) : Matrix := map (fun r => vecmat (ncols B) r B) A.

Definition matvec (A : Matrix) (v : Vector) : Vector := map (fun r => dot r v) A.

(** [A @ B] for two-dimensional arrays: numpy raises when the inner
    dimensions differ. *)
Definition py_matmul (A B : Matrix) : option Matrix :=
  if rectangular A && rectangular B && Nat.eqb (ncols A) (nrows B)
  then Some (matmul A B) else None.

(** [A @ v] for a one-dimensional [v]. *)
Definition py_matvec (A : Matrix) (v : Vector) : option Vector :=
  if rectangular A && Nat.eqb (ncols A) (List.length v)
  then Some (matvec A v) else None.

(** [np.trace(A)]: the sum of the entries [A[i][i]]. *)
Fixpoint trace_from (i : nat) (A : Matrix) : C :=
  match A with
  | [] => C0
  | r :: A' =>
      match nth_error r i with
      | Some x => Cadd x (trace_from (S i) A')
      | None => C0
      end
  end.

Definition trace (A : Matrix) : C := trace_from 0 A.

(** [A.flatten()] *)
Definition flatten (A : Matrix) : Vector := List.concat A.

(** [np.kron(A, B)] *)
Definition kron (A B : Matrix) : Matrix :=
  List.concat (map (fun ra =>
    map (fun rb => List.concat (map (fun a => vscale a rb) ra)) B) A).

(** [itertools.product(l, repeat=2)] *)
Definition product2 {A} (l : list A) : list (A * A) :=
  List.concat (map (fun x => map (fun y => (x, y)) l) l).

Fixpoint identity (n : nat) : Matrix :=
  match n with
  | O => []
  | S n' => (C1 :: repeat C0 n') :: map (cons C0) (identity n')
  end.

Fixpoint chunks (fuel c : nat) (v : Vector) : Matrix :=
  match fuel with
  | O => []
  | S fuel' => firstn c v :: chunks fuel' c (skipn c v)
  end.

(** [np.reshape(v, (r, c))] *)
Definition reshape (v : Vector) (r c : nat) : option Matrix :=
  if Nat.eqb (List.length v) (r * c) then Some (chunks r c v) else None.

(** *** [np.linalg.inv]: Gauss-Jordan elimination on [A | I] *)

Definition Cnonzero (a : C) : bool := negb (Ceqb a C0).

(** [r - c * p] *)
Definition row_sub (c : C) (p r : Vector) : Vector :=
  vadd r (vscale (Copp c) p).

(** Clear column [j] of [r] with the pivot row [p], whose entry [j] is 1. *)
Definition eliminate (j : nat) (p r : Vector) : Vector :=
  row_sub (nth j r C0) p r.

(** The first row with a non-zero entry in column [j], and the others. *)
Fixpoint find_pivot (j : nat) (rows : Matrix) : option (Vector * Matrix) :=
  match rows with
  | [] => None
  | r :: rows' =>
      if Cnonzero (nth j r C0) then Some (r, rows')
      else match find_pivot j rows' with
           | Some (p, others) => Some (p, r :: others)
           | None => None
           end
  end.

(** [done] holds the rows whose pivots are in columns [0 .. j-1]. *)
Fixpoint gauss_jordan (steps j : nat) (done rest : Matrix) : option Matrix :=
  match steps with
  | O => Some done
  | S steps' =>
      match find_pivot j rest with
      | None => None
      | Some (p, others) =>
          let p1 := vscale (Cinv (nth j p C0)) p in
          gauss_jordan steps' (S j)
            (map (eliminate j p1) done ++ [p1])
            (map (eliminate j p1) others)
      end
  end.

Fixpoint augment (A B : Matrix) : Matrix :=
  match A, B with
  | u :: A', v :: B' => (u ++ v) :: augment A' B'
  | _, _ => []
  end.

(** [np.linalg.inv(A)]; [None] where numpy raises [LinAlgError]. *)
Definition inv (A : Matrix) : option Matrix :=
  let n := nrows A in
  if rectangular A && Nat.eqb (ncols A) n then
    match gauss_jordan n 0 [] (augment A (identity n)) with
    | Some rows => Some (map (skipn n) rows)
    | None => None
    end
  else None.

(** *** Cell 2: the Pauli matrices *)

Definition I : Matrix := [[C1; C0]; [C0; C1]].
Definition X : Matrix := [[C0; C1]; [C1; C0]].
Definition Y : Matrix := [[C0; Copp Ci]; [Ci; C0]].
Definition Z : Matrix := [[C1; C0]; [C0; Copp C1]].

(** *** Cell 3: [def HS_product(A, B)] *)

Definition HS_product (A B : Matrix) : option C :=
  match py_matmul (transpose (conj B)) A with
  | Some P => Some (Cmul Chalf (trace P))
  | None => None
  end.

(** *** Cell 4: the projectors *)

Definition PX0 : Matrix := mscale Chalf [[C1; C1]; [C1; C1]].
Definition PX1 : Matrix := mscale Chalf [[C1; Copp C1]; [Copp C1; C1]].

Definition PY0 : Matrix := mscale Chalf [[C1; Copp Ci]; [Ci; C1]].
Definition PY1 : Matrix := mscale Chalf [[C1; Ci]; [Copp Ci; C1]].

Definition PZ0 : Matrix := [[C1; C0]; [C0; C0]].
Definition PZ1 : Matrix := [[C0; C0]; [C0; C1]].

Definition projectors : list Matrix := [PX0; PX1; PY0; PY1; PZ0; PZ1].

(** *** Cells 5 and 6: [M] and the linear inversion matrix *)

Definition M : Matrix := map flatten projectors.

Definition M_dg : Matrix := transpose (conj M).

Definition linear_inversion_matrix : option Matrix :=
  match py_matmul M_dg M with
  | Some G =>
      match inv G with
      | Some Gi => py_matmul Gi M_dg
      | None => None
      end
  | None => None
  end.

(** *** Cell 7: two qubits *)

Definition projectors_2 : list Matrix :=
  map (fun '(p1, p2) => kron p1 p2) (product2 projectors).

Definition M_2 : Matrix := map flatten projectors_2.

Definition M_dg_2 : Matrix := transpose (conj M_2).

Definition linear_inversion_matrix_2 : option Matrix :=
  match py_matmul M_dg_2 M_2 with
  | Some G =>
      match inv G with
      | Some Gi => py_matmul Gi M_dg_2
      | None => None
      end
  | None => None
  end.

(** *** Cell 13: the reconstruction of [rho_bell]

    [p] and [M] are what [statefit._fitter_data] hands over. *)

Definition rho_bell (M : Matrix) (p : Vector) : option Matrix :=
  let M_dg := transpose (conj M) in
  match py_matmul M_dg M with
  | Some G =>
      match inv G with
      | Some Gi =>
          match py_matmul Gi M_dg with
          | Some linear_inversion_matrix =>
              match py_matvec linear_inversion_matrix p with
              | Some rho => reshape rho 4 4
              | None => None
              end
          | None => None
          end
      | None => None
      end
  | None => None
  end.

(** *** What a density matrix is (markdown of the notebook)

    Unit trace and positive semidefiniteness; a Hermitian idempotent matrix
    is positive semidefinite.  The notebook states these in prose and has no
    code for them. *)

Definition unit_trace (A : Matrix) : bool := Ceqb (trace A) C1.

Definition hermitian (A : Matrix) : bool := Meqb (transpose (conj A)) A.

Definition idempotent (A : Matrix) : bool :=
  match py_matmul A A with
  | Some P => Meqb P A
  | None => false
  end.

Definition pure_state (A : Matrix) : bool :=
  unit_trace A && hermitian A && idempotent A.

(** The expectation [<psi| A |psi>]. *)
Definition expectation (A : Matrix) (psi : Vector) : C :=
  dot (map Cconj psi) (matvec A psi).

(** The two projectors of each measurement basis, and the Pauli matrices. *)
Definition bases : list (Matrix * Matrix) :=
  [(PX0, PX1); (PY0, PY1); (PZ0, PZ1)].


End Tomography.

(** ** The function definitions of the notebooks

    Every [def] of the source, with the number of source lines it spans (from
    the [def] line to the last line of its body) and the function it denotes:
    a map from the external world it calls into and its arguments to what it
    does. *)

Module Inventory.



Section Defs.

Variables Circuit Backend Job Result Register R : Type.

Let SDK : Type := TeachMeQ.SDK Circuit Backend Job Result Register.
Let St : Type := TeachMeQ.St Circuit Backend Result.








End Defs.


End Inventory.

(** ** Small worlds to run the helpers in *)

Module Demo.

Import TeachMeQ.

Definition QiskitError (msg : string) : exn :=
  Exn ["QiskitError"; "Exception"; "BaseException"] msg.

Definition ModuleNotFoundError (msg : string) : exn :=
  Exn ["ModuleNotFoundError"; "ImportError"; "Exception"; "BaseException"] msg.

(** A provider with two devices whose job answers the statuses [statuses] in
    turn and is [DONE] afterwards.  SDK objects are named by strings. *)
Definition sdk (statuses : list string) : SDK string string string string string :=
  {| draw := fun _ => Ret tt;
     plt := fun _ => Ret tt;
     Aer_get_backend := fun n => Ret n;
     IBMQ_backends := fun _ => Ret ["ibmqx4"; "ibmq_16_melbourne"];
     least_busy := fun l =>
       match l with
       | b :: _ => Ret b
       | [] => Raise (QiskitError "no backend")
       end;
     execute := fun qc b _ _ => Ret ("job on " ++ b)%string;
     job_status := fun _ n => Ret (mkStatus (nth n statuses "DONE"));
     job_result := fun j => Ret ("result of " ++ j)%string;
     get_counts := fun _ _ => Ret [("00", 506%Z); ("11", 518%Z)];
     time_sleep := fun _ _ => Ret tt;
     QuantumRegister := fun _ => Ret "q";
     ClassicalRegister := fun _ => Ret "c";
     QuantumCircuit := fun _ _ => Ret "circuit" |}.


(** The same provider with a circuit drawer that fails. *)
Definition sdk_no_drawer : SDK string string string string string :=
  {| draw := fun _ => Raise (QiskitError "drawer unavailable");
     plt := plt (sdk []);
     Aer_get_backend := Aer_get_backend (sdk []);
     IBMQ_backends := IBMQ_backends (sdk []);
     least_busy := least_busy (sdk []);
     execute := execute (sdk []);
     job_status := job_status (sdk []);
     job_result := job_result (sdk []);
     get_counts := get_counts (sdk []);
     time_sleep := time_sleep (sdk []);
     QuantumRegister := QuantumRegister (sdk []);
     ClassicalRegister := ClassicalRegister (sdk []);
     QuantumCircuit := QuantumCircuit (sdk []) |}.

(** A provider without any device. *)
Definition sdk_no_device : SDK string string string string string :=
  {| draw := draw (sdk []);
     plt := plt (sdk []);
     Aer_get_backend := Aer_get_backend (sdk []);
     IBMQ_backends := fun _ => Ret [];
     least_busy := least_busy (sdk []);
     execute := execute (sdk []);
     job_status := job_status (sdk []);
     job_result := job_result (sdk []);
     get_counts := get_counts (sdk []);
     time_sleep := time_sleep (sdk []);
     QuantumRegister := QuantumRegister (sdk []);
     ClassicalRegister := ClassicalRegister (sdk []);
     QuantumCircuit := QuantumCircuit (sdk []) |}.

(** A provider whose job ends in [ERROR] and stays there. *)
Definition sdk_job_error : SDK string string string string string :=
  {| draw := draw (sdk []);
     plt := plt (sdk []);
     Aer_get_backend := Aer_get_backend (sdk []);
     IBMQ_backends := IBMQ_backends (sdk []);
     least_busy := least_busy (sdk []);
     execute := execute (sdk []);
     job_status := fun _ _ => Ret (mkStatus "ERROR");
     job_result := job_result (sdk []);
     get_counts := get_counts (sdk []);
     time_sleep := time_sleep (sdk []);
     QuantumRegister := QuantumRegister (sdk []);
     ClassicalRegister := ClassicalRegister (sdk []);
     QuantumCircuit := QuantumCircuit (sdk []) |}.

(** The store at the start of a run. *)
Definition start : St string string string := st0.

(** A data set of five samples with two features, split by taking the last
    [test_size] rows as the test set; the transformers leave the data as it
    is. *)
Definition toy_data : Wine.Array BinNums.Z :=
  [[1; 2]; [3; 4]; [5; 6]; [7; 8]; [9; 10]]%Z.

Definition toy_target : Wine.Labels := [0; 1; 2; 0; 1]%Z.

Definition sklearn (matplotlib : outcome unit) : Wine.Sklearn BinNums.Z :=
  {| Wine.load_wine := fun _ => Ret (toy_data, toy_target);
     Wine.train_test_split := fun data target test_size _ =>
       let n := (List.length data - Z.to_nat test_size)%nat in
       Ret (firstn n data, skipn n data, firstn n target, skipn n target);
     Wine.StandardScaler_fit := fun _ => Ret (fun a => Ret a);
     Wine.PCA_fit := fun _ _ => Ret (fun a => Ret a);
     Wine.MinMaxScaler_fit := fun _ _ => Ret (fun a => Ret a);
     Wine.np_append := fun a b _ => Ret (a ++ b);
     Wine.import_matplotlib := matplotlib;
     Wine.plt_scatter := fun _ _ => Ret tt;
     Wine.plt_title := fun _ => Ret tt;
     Wine.plt_show := Ret tt |}.

(** The Bell state (|00> + |11>)/sqrt 2 as a density matrix. *)
Definition bell : Tomography.Matrix :=
  let h := Tomography.Chalf in
  let o := Tomography.C0 in
  [[h; o; o; h]; [o; o; o; o]; [o; o; o; o]; [h; o; o; h]].

End Demo.

(** ** Notebook cells that use the helpers or the SDK directly *)

Module Cells.

(** [vqc_feature_map_comparison.ipynb], third cell: [n_features = 4] and the
    call of [wine] that feeds both classifiers. *)
Definition n_features : Z := 4.


(** [IBMQ_setup.ipynb], the cells that list the backends.  A backend's
    [configuration()] is a dictionary; the cells read its ["url"] entry. *)
Section Setup.

Context {Backend : Type}.

Definition Config : Type := list (string * string).

Record Provider : Type := {
  backends : outcome (list Backend);
  configuration : Backend -> outcome Config
}.

Inductive Line : Type :=
| LBackend (b : Backend)
| LConfig (c : Config)
| LStr (s : string).

Definition Out : Type := list Line.

Variable p : Provider.

Definition call {A} (o : outcome A) : M Out A := fun st => Some (o, st).

Definition print (l : Line) : M Out unit := fun st => Some (Ret tt, st ++ [l]).

(** [l[0]] *)
Definition first {A} (l : list A) : outcome A :=
  match l with
  | x :: _ => Ret x
  | [] => Raise (Exn ["IndexError"; "LookupError"; "Exception"; "BaseException"]
                     "list index out of range")
  end.

(** [d[key]] *)
Fixpoint getitem (d : Config) (key : string) : outcome string :=
  match d with
  | [] => Raise (Exn ["KeyError"; "LookupError"; "Exception"; "BaseException"]
                     key)
  | (k, v) :: d' => if String.eqb k key then Ret v else getitem d' key
  end.

(** [for backend in IBMQ.backends(): print(backend)] *)
Definition list_backends : M Out unit :=
  bs <- call (backends p) ;;
  for_each bs (fun backend => print (LBackend backend)).

(** [backend_0 = IBMQ.backends()[0]; print(backend_0.configuration())] *)
Definition first_backend : M Out Backend :=
  bs <- call (backends p) ;;
  backend_0 <- call (first bs) ;;
  c <- call (configuration p backend_0) ;;
  print (LConfig c) ;;;
  ret backend_0.

(** [print("Go check its specification at %s" % backend_0.configuration()["url"])] *)
Definition specification (backend_0 : Backend) : M Out unit :=
  c <- call (configuration p backend_0) ;;
  url <- call (getitem c "url") ;;
  print (LStr ("Go check its specification at " ++ url)%string).

End Setup.

Arguments Provider : clear implicits.
Arguments Line : clear implicits.
Arguments Out : clear implicits.

(** A provider with the devices of the notebook's output; the last one has
    no ["url"] in its configuration. *)
Definition provider (names : list string) : Provider string :=
  {| backends := Ret names;
     configuration := fun b =>
       if String.eqb b "ibmq_qasm_simulator" then Ret [("name", b)]
       else Ret [("name", b); ("url", ("https://ibm.biz/qiskit-" ++ b)%string)] |}.

End Cells.

(** ** What a computation adds to the trace *)

Module TraceSpec.

(** Every run of [m] that ends extends the trace by events that satisfy
    [P], whether it returns or raises. *)
Definition appends {Circuit Backend Result A : Type}
  (P : TeachMeQ.Event Circuit Backend Result -> Prop)
  (m : M (TeachMeQ.St Circuit Backend Result) A) : Prop :=
  forall st o st',
    m st = Some (o, st') ->
    exists new, TeachMeQ.trace st' = TeachMeQ.trace st ++ new /\ Forall P new.

End TraceSpec.

(** ** A second scikit-learn world, whose PCA keeps the leading features *)

Module Demo2.

Definition sklearn_pca : Wine.Sklearn BinNums.Z :=
  {| Wine.load_wine := Wine.load_wine (Demo.sklearn (Ret tt));
     Wine.train_test_split := Wine.train_test_split (Demo.sklearn (Ret tt));
     Wine.StandardScaler_fit := Wine.StandardScaler_fit (Demo.sklearn (Ret tt));
     Wine.PCA_fit := fun n_components _ =>
       Ret (fun a => Ret (map (firstn (Z.to_nat n_components)) a));
     Wine.MinMaxScaler_fit := Wine.MinMaxScaler_fit (Demo.sklearn (Ret tt));
     Wine.np_append := Wine.np_append (Demo.sklearn (Ret tt));
     Wine.import_matplotlib := Ret tt;
     Wine.plt_scatter := Wine.plt_scatter (Demo.sklearn (Ret tt));
     Wine.plt_title := Wine.plt_title (Demo.sklearn (Ret tt));
     Wine.plt_show := Wine.plt_show (Demo.sklearn (Ret tt)) |}.


End Demo2.

(** * Properties *)

Ltac splits := repeat match goal with |- _ /\ _ => split end.

(** ** The execution helpers *)

Section TeachMeQFacts.

Import TeachMeQ.

Context {Circuit Backend Job Result Register : Type}.

Abbreviation SDK := (TeachMeQ.SDK Circuit Backend Job Result Register).
Abbreviation St := (TeachMeQ.St Circuit Backend Result).
Abbreviation Event := (TeachMeQ.Event Circuit Backend Result).

Variable w : SDK.

Ltac run :=
  unfold execute_locally, execute_remotely, remote_body, show_results,
    new_circuit, try_except, bind, call, print, call_draw, call_plt, status,
    sleep, ret, log in *; simpl in *.

(** One round of the loop on a status that is not [DONE]. *)
Lemma wait_loop_round (fuel : nat) (job : Job) (lapse : Z) (st : St)
  (s s' : JobStatus) :
  job_status w job (polls st) = Ret s ->
  name s <> "DONE" ->
  job_status w job (S (polls st)) = Ret s' ->
  time_sleep w 10 (sleeps st) = Ret tt ->
  wait_loop w (S fuel) job lapse 10 st =
  wait_loop w fuel job (lapse + 1) 10
    (mkSt (trace st ++ polling_trace lapse [s']) (2 + polls st) (1 + sleeps st)).
Proof.
  intros Hs Hname Hs' Hsleep.
  cbn [wait_loop]. run. rewrite Hs.
  destruct (String.eqb_spec (name s) "DONE") as [E | _]; [contradiction |].
  simpl. rewrite Hs'. simpl. rewrite Hsleep.
  rewrite <- !app_assoc. reflexivity.
Qed.

(** The loop leaves on a status that is [DONE], and leaves the counter as it
    is. *)
Lemma wait_loop_done (fuel : nat) (job : Job) (lapse : Z) (st : St)
  (s : JobStatus) :
  job_status w job (polls st) = Ret s ->
  name s = "DONE" ->
  wait_loop w (S fuel) job lapse 10 st =
  Some (Ret lapse, mkSt (trace st) (S (polls st)) (sleeps st)).
Proof.
  intros Hs Hname. cbn [wait_loop]. run. rewrite Hs, Hname. reflexivity.
Qed.

Lemma polling_trace_app (lapse : Z) (seen1 seen2 : list JobStatus) :
  (polling_trace lapse (seen1 ++ seen2) : list Event) =
  polling_trace lapse seen1
  ++ polling_trace (lapse + Z.of_nat (List.length seen1)) seen2.
Proof.
  revert lapse. induction seen1 as [| s seen1 IH]; intros lapse.
  - simpl. now rewrite Z.add_0_r.
  - cbn [polling_trace app List.length]. rewrite IH.
    replace (lapse + 1 + Z.of_nat (List.length seen1))%Z
      with (lapse + Z.of_nat (S (List.length seen1)))%Z by lia.
    reflexivity.
Qed.

(** A normal exit of the loop, taken apart. *)
Lemma wait_loop_exit (job : Job) (fuel : nat) :
  forall (lapse : Z) (st : St) (l : Z) (st' : St),
  wait_loop w fuel job lapse 10 st = Some (Ret l, st') ->
  exists seen : list JobStatus,
    l = (lapse + Z.of_nat (List.length seen))%Z
    /\ trace st' = trace st ++ polling_trace lapse seen
    /\ polls st' = (polls st + 2 * List.length seen + 1)%nat
    /\ sleeps st' = (sleeps st + List.length seen)%nat
    /\ (exists s, job_status w job (polls st + 2 * List.length seen) = Ret s
                  /\ name s = "DONE")
    /\ (forall k, (k < List.length seen)%nat ->
          exists s, job_status w job (polls st + 2 * k) = Ret s
                    /\ name s <> "DONE").
Proof.
  induction fuel as [| fuel IH]; intros lapse st l st' H.
  - discriminate H.
  - cbn [wait_loop] in H. run.
    destruct (job_status w job (polls st)) as [s | e] eqn:Hs; [| discriminate H].
    destruct (String.eqb_spec (name s) "DONE") as [Hdone | Hnot]; simpl in H.
    + inversion H; subst. exists []. simpl.
      rewrite app_nil_r, Z.add_0_r, Nat.add_0_r.
      splits; try lia; try reflexivity.
      exists s. split; assumption.
    + destruct (job_status w job (S (polls st))) as [s' | e] eqn:Hs';
        [| discriminate H].
      simpl in H.
      destruct (time_sleep w 10 (sleeps st)) as [[] | e] eqn:Hsl;
        [| discriminate H].
      apply IH in H. simpl in H.
      destruct H as (seen & Hl & Htr & Hp & Hsn & (sd & Hsd & Hd) & Hbefore).
      exists (s' :: seen). cbn [List.length polling_trace].
      splits.
      * lia.
      * rewrite Htr, <- !app_assoc. reflexivity.
      * lia.
      * lia.
      * exists sd. split; [| assumption].
        rewrite <- Hsd. f_equal. lia.
      * intros [| k] Hk.
        -- exists s. rewrite Nat.add_0_r. split; assumption.
        -- destruct (Hbefore k ltac:(lia)) as (sk & Hsk & Hnk).
           exists sk. split; [| assumption]. rewrite <- Hsk. f_equal. lia.
Qed.

(** An exception that ends the loop was raised by [status()] or by
    [time.sleep]. *)
Lemma wait_loop_raise (job : Job) (fuel : nat) :
  forall (lapse : Z) (st : St) (e : exn) (st' : St),
  wait_loop w fuel job lapse 10 st = Some (Raise e, st') ->
  (exists n, job_status w job n = Raise e)
  \/ (exists n, time_sleep w 10 n = Raise e).
Proof.
  induction fuel as [| fuel IH]; intros lapse st e st' H.
  - discriminate H.
  - cbn [wait_loop] in H. run.
    destruct (job_status w job (polls st)) as [s | e1] eqn:Hs.
    + destruct (String.eqb_spec (name s) "DONE") as [Hdone | Hnot];
        simpl in H; [discriminate H |].
      destruct (job_status w job (S (polls st))) as [s' | e2] eqn:Hs'.
      * simpl in H.
        destruct (time_sleep w 10 (sleeps st)) as [[] | e3] eqn:Hsl.
        -- apply IH in H. exact H.
        -- inversion H; subst. right. exists (sleeps st). exact Hsl.
      * inversion H; subst. left. exists (S (polls st)). exact Hs'.
    + inversion H; subst. left. exists (polls st). exact Hs.
Qed.

(** A job that never answers [DONE] keeps the loop going for ever. *)
Lemma wait_loop_never_done (job : Job) :
  (forall n, exists s, job_status w job n = Ret s /\ name s <> "DONE") ->
  (forall n, time_sleep w 10 n = Ret tt) ->
  forall (fuel : nat) (lapse : Z) (st : St),
    wait_loop w fuel job lapse 10 st = None.
Proof.
  intros Hstat Hsleep. induction fuel as [| fuel IH]; intros lapse st.
  - reflexivity.
  - destruct (Hstat (polls st)) as (s & Hs & Hn).
    destruct (Hstat (S (polls st))) as (s' & Hs' & _).
    rewrite (wait_loop_round fuel job lapse st s s' Hs Hn Hs' (Hsleep _)).
    apply IH.
Qed.

(** A job that answers [DONE] at the [n]-th test of the loop condition lets
    the loop return after [n] rounds. *)
Lemma wait_loop_returns (job : Job) (n : nat) :
  forall (lapse : Z) (st : St),
  (forall k, (k < n)%nat ->
     (exists s, job_status w job (polls st + 2 * k) = Ret s /\ name s <> "DONE")
     /\ (exists s', job_status w job (polls st + 2 * k + 1) = Ret s')
     /\ time_sleep w 10 (sleeps st + k) = Ret tt) ->
  (exists s, job_status w job (polls st + 2 * n) = Ret s /\ name s = "DONE") ->
  forall fuel, (n < fuel)%nat ->
    exists st', wait_loop w fuel job lapse 10 st
                = Some (Ret (lapse + Z.of_nat n)%Z, st').
Proof.
  induction n as [| n IH]; intros lapse st Hbefore (sd & Hsd & Hd) fuel Hfuel.
  - destruct fuel as [| fuel]; [lia |].
    rewrite Nat.add_0_r in Hsd.
    rewrite (wait_loop_done fuel job lapse st sd Hsd Hd).
    rewrite Z.add_0_r. eexists. reflexivity.
  - destruct fuel as [| fuel]; [lia |].
    destruct (Hbefore 0%nat ltac:(lia)) as ((s & Hs & Hn) & (s' & Hs') & Hsl).
    rewrite !Nat.add_0_r in *. rewrite Nat.add_1_r in Hs'.
    rewrite (wait_loop_round fuel job lapse st s s' Hs Hn Hs' Hsl).
    destruct (IH (lapse + 1)%Z
                (mkSt (trace st ++ polling_trace lapse [s'])
                      (2 + polls st) (1 + sleeps st))) with (fuel := fuel)
      as (st' & Hst').
    + intros k Hk. simpl.
      destruct (Hbefore (S k) ltac:(lia)) as ((sk & Hsk & Hnk) & (sk' & Hsk') & Hslk).
      splits.
      * exists sk. split; [| assumption]. rewrite <- Hsk. f_equal. lia.
      * exists sk'. rewrite <- Hsk'. f_equal. lia.
      * rewrite <- Hslk. f_equal. lia.
    + exists sd. split; [| assumption]. simpl. rewrite <- Hsd. f_equal. lia.
    + lia.
    + exists st'. rewrite Hst'. do 3 f_equal. lia.
Qed.

(** C1.  The wait loop of [execute_remotely] tests the job status, and on
    every status whose name is not ['DONE'] (whatever it is: queued, error,
    cancelled) it prints, sleeps [interval = 10] seconds, adds one to [lapse]
    and tests again.  A normal exit of the loop happens only on a status
    named ['DONE'], after rounds that all saw another status and slept 10
    seconds each.  There is no bound on the number of rounds: a job that
    never answers ['DONE'] keeps the loop, and with it [execute_remotely],
    running for ever; and a job that answers ['DONE'] at the [n]-th test
    lets the loop return with [lapse = n].  The only other way out of the
    loop is an exception raised by [status()] or [time.sleep]. *)
Theorem wait_loop_polls_every_10s_until_DONE :
  (forall (job : Job) (fuel : nat) (lapse : Z) (st : St) (s s' : JobStatus),
     job_status w job (polls st) = Ret s ->
     name s <> "DONE" ->
     job_status w job (S (polls st)) = Ret s' ->
     time_sleep w 10 (sleeps st) = Ret tt ->
     wait_loop w (S fuel) job lapse 10 st =
     wait_loop w fuel job (lapse + 1) 10
       (mkSt (trace st
              ++ [Print [PStr ("Status @ " ++ str_int (10 * lapse)
                               ++ " seconds")%string];
                  Print [PStatus s']; Sleep 10])
             (2 + polls st) (1 + sleeps st)))
  /\ (forall (job : Job) (fuel : nat) (st : St) (l : Z) (st' : St),
        wait_loop w fuel job 0 10 st = Some (Ret l, st') ->
        exists seen : list JobStatus,
          l = Z.of_nat (List.length seen)
          /\ trace st' = trace st ++ polling_trace 0 seen
          /\ polls st' = (polls st + 2 * List.length seen + 1)%nat
          /\ sleeps st' = (sleeps st + List.length seen)%nat
          /\ (exists s, job_status w job (polls st + 2 * List.length seen) = Ret s
                        /\ name s = "DONE")
          /\ (forall k, (k < List.length seen)%nat ->
                exists s, job_status w job (polls st + 2 * k) = Ret s
                          /\ name s <> "DONE"))
  /\ (forall (job : Job),
        (forall n, exists s, job_status w job n = Ret s /\ name s <> "DONE") ->
        (forall n, time_sleep w 10 n = Ret tt) ->
        (forall (fuel : nat) (st : St), wait_loop w fuel job 0 10 st = None)
        /\ (forall (fuel : nat) (qc : Circuit) (draw_circuit : bool) (st : St)
                   (devices : list Backend) (device : Backend),
              IBMQ_backends w false = Ret devices ->
              least_busy w devices = Ret device ->
              execute w qc device (Some 1024%Z) (Some 10%Z) = Ret job ->
              draw_circuit = false \/ draw w qc = Ret tt ->
              execute_remotely w fuel qc draw_circuit st = None))
  /\ (forall (job : Job) (n : nat) (st : St),
        (forall k, (k < n)%nat ->
           (exists s, job_status w job (polls st + 2 * k) = Ret s
                      /\ name s <> "DONE")
           /\ (exists s', job_status w job (polls st + 2 * k + 1) = Ret s')
           /\ time_sleep w 10 (sleeps st + k) = Ret tt) ->
        (exists s, job_status w job (polls st + 2 * n) = Ret s
                   /\ name s = "DONE") ->
        forall fuel, (n < fuel)%nat ->
          exists st', wait_loop w fuel job 0 10 st
                      = Some (Ret (Z.of_nat n), st'))
  /\ (forall (job : Job) (fuel : nat) (st : St) (e : exn) (st' : St),
        wait_loop w fuel job 0 10 st = Some (Raise e, st') ->
        (exists n, job_status w job n = Raise e)
        \/ (exists n, time_sleep w 10 n = Raise e)).
Proof.
  splits.
  - intros job fuel lapse st s s' Hs Hn Hs' Hsl.
    apply (wait_loop_round fuel job lapse st s s' Hs Hn Hs' Hsl).
  - intros job fuel st l st' H.
    destruct (wait_loop_exit job fuel 0 st l st' H)
      as (seen & Hl & Htr & Hp & Hsn & Hd & Hb).
    exists seen. splits; auto.
  - intros job Hstat Hsleep. split.
    { intros fuel st. apply wait_loop_never_done; assumption. }
    intros fuel qc dc st devices device Hdev Hlb Hex Hdraw.
    assert (Hloop : forall st1, wait_loop w fuel job 0 10 st1 = None)
      by (intros st1; apply wait_loop_never_done; assumption).
    unfold execute_remotely, remote_body, try_except, bind, call, print,
      call_draw, ret.
    destruct Hdraw as [-> | Hdraw].
    + rewrite Hdev, Hlb, Hex, Hloop. reflexivity.
    + destruct dc; [rewrite Hdraw |]; rewrite Hdev, Hlb, Hex, Hloop; reflexivity.
  - intros job n st Hb Hd fuel Hfuel.
    destruct (wait_loop_returns job n 0 st Hb Hd fuel Hfuel) as (st' & H).
    exists st'. exact H.
  - intros job fuel st e st' H. apply (wait_loop_raise job fuel 0 st e st' H).
Qed.

(** C2, as the code has it.  [draw(qc)] is called before the [try] block: an
    exception of the drawer leaves [execute_remotely] and reaches the caller,
    and nothing is printed.  Every exception raised inside the [try] block
    (device selection, job submission, status polling, result retrieval,
    result display) is caught by the bare [except], which prints the static
    message and lets the call return normally; so once the drawing is over no
    run of [execute_remotely] ends with an exception. *)
Theorem execute_remotely_catches_all_but_draw
  (fuel : nat) (qc : Circuit) (draw_circuit : bool) (st : St) :
  (forall e, draw_circuit = true -> draw w qc = Raise e ->
     execute_remotely w fuel qc draw_circuit st
     = Some (Raise e, log (Draw qc) st))
  /\ (draw_circuit = false \/ draw w qc = Ret tt ->
      forall o st', execute_remotely w fuel qc draw_circuit st = Some (o, st') ->
                    o = Ret tt)
  /\ (forall e st1 st2,
        (draw_circuit = false /\ st1 = st)
        \/ (draw_circuit = true /\ draw w qc = Ret tt /\ st1 = log (Draw qc) st) ->
        remote_body w fuel qc draw_circuit st1 = Some (Raise e, st2) ->
        execute_remotely w fuel qc draw_circuit st
        = Some (Ret tt,
                log (Print [PStr "All devices are currently unavailable."]) st2))
  /\ (forall e, draw_circuit = false -> IBMQ_backends w false = Raise e ->
        execute_remotely w fuel qc draw_circuit st
        = Some (Ret tt,
                log (Print [PStr "All devices are currently unavailable."]) st)).
Proof.
  splits.
  - intros e -> He.
    unfold execute_remotely, bind, call_draw. rewrite He. reflexivity.
  - intros Hdraw o st' H.
    unfold execute_remotely, try_except, bind, call_draw, ret, print in H.
    assert (Hbody : forall st1,
      match remote_body w fuel qc draw_circuit st1 with
      | Some (Ret a, st'0) => Some (Ret a, st'0)
      | Some (Raise _, st'0) =>
          Some (Ret tt, log (Print [PStr unavailable]) st'0)
      | None => None
      end = Some (o, st') -> o = Ret tt).
    { intros st1 H1.
      destruct (remote_body w fuel qc draw_circuit st1) as [[[[] | e] st2] |];
        inversion H1; reflexivity. }
    destruct Hdraw as [-> | Hdraw].
    + apply (Hbody _ H).
    + destruct draw_circuit; [rewrite Hdraw in H |]; apply (Hbody _ H).
  - intros e st1 st2 Hst1 Hbody.
    unfold execute_remotely, try_except, bind, call_draw, ret, print.
    destruct Hst1 as [[-> ->] | (-> & Hdraw & ->)].
    + rewrite Hbody. reflexivity.
    + rewrite Hdraw, Hbody. reflexivity.
  - intros e -> He.
    unfold execute_remotely, remote_body, try_except, bind, call, ret, print.
    rewrite He. reflexivity.
Qed.

(** C10.  When the simulation gives a result and its counts,
    [execute_locally] prints them and then does exactly one of the two
    display actions: [draw(qc)] if [draw_circuit] is true, and
    [show_results(result_counts)] if it is false; never both. *)
Theorem execute_locally_prints_then_displays_once
  (qc : Circuit) (draw_circuit : bool) (st : St)
  (backend_sim : Backend) (job_sim : Job) (result_sim : Result)
  (result_counts : Counts) :
  Aer_get_backend w "qasm_simulator" = Ret backend_sim ->
  execute w qc backend_sim None None = Ret job_sim ->
  job_result w job_sim = Ret result_sim ->
  get_counts w result_sim qc = Ret result_counts ->
  let printed :=
    log (Print [PStr "simulation: "; PResult result_sim; PCounts result_counts])
        st in
  execute_locally w qc draw_circuit st
  = (if draw_circuit then call_draw w qc printed
     else show_results w result_counts printed)
  /\ exists o st' display,
       execute_locally w qc draw_circuit st = Some (o, st')
       /\ trace st' = trace printed ++ display
       /\ (draw_circuit = true -> display = [Draw qc])
       /\ (draw_circuit = false ->
             exists rest,
               display = Plt (Bar (range (List.length result_counts))
                                  (map snd result_counts) "center") :: rest
               /\ forallb is_plot display = true)
       /\ existsb is_draw display = draw_circuit
       /\ existsb is_plot display = negb draw_circuit.
Proof.
  intros Hb Hj Hr Hc printed.
  assert (Heq : execute_locally w qc draw_circuit st
                = (if draw_circuit then call_draw w qc printed
                   else show_results w result_counts printed)).
  { unfold execute_locally, bind, call, print. rewrite Hb, Hj, Hr, Hc.
    destruct draw_circuit; reflexivity. }
  split; [exact Heq |]. rewrite Heq. subst printed.
  destruct draw_circuit.
  - unfold call_draw. do 2 eexists. exists [Draw qc].
    splits; try reflexivity.
    intros Hf. discriminate Hf.
  - unfold show_results, bind, call_plt, log. simpl.
    destruct (plt w (Bar (range (List.length result_counts))
                         (map snd result_counts) "center")) as [[] | e1].
    + destruct (plt w (Xticks (range (List.length result_counts))
                              (map fst result_counts))) as [[] | e2].
      * do 2 eexists.
        exists [Plt (Bar (range (List.length result_counts))
                         (map snd result_counts) "center");
                Plt (Xticks (range (List.length result_counts))
                            (map fst result_counts));
                Plt Show].
        splits; try reflexivity.
        -- simpl. rewrite <- !app_assoc. reflexivity.
        -- intros Hf. discriminate Hf.
        -- intros _. eexists. split; reflexivity.
      * do 2 eexists.
        exists [Plt (Bar (range (List.length result_counts))
                         (map snd result_counts) "center");
                Plt (Xticks (range (List.length result_counts))
                            (map fst result_counts))].
        splits; try reflexivity.
        -- simpl. rewrite <- !app_assoc. reflexivity.
        -- intros Hf. discriminate Hf.
        -- intros _. eexists. split; reflexivity.
    + do 2 eexists.
      exists [Plt (Bar (range (List.length result_counts))
                       (map snd result_counts) "center")].
      splits; try reflexivity.
      * intros Hf. discriminate Hf.
      * intros _. eexists. split; reflexivity.
Qed.

End TeachMeQFacts.

Import TeachMeQ.

(** A job that is queued, then running, then done: two rounds of the loop.
    A job in [ERROR]: the loop does not end. *)
Lemma wait_loop_polls_every_10s_until_DONE_witness :
  (wait_loop (Demo.sdk ["QUEUED"; "QUEUED"; "RUNNING"; "RUNNING"]) 5
     "job on ibmqx4" 0 10 Demo.start
   = Some (Ret 2%Z,
           mkSt [Print [PStr "Status @ 0 seconds"];
                 Print [PStatus (mkStatus "QUEUED")]; Sleep 10;
                 Print [PStr "Status @ 10 seconds"];
                 Print [PStatus (mkStatus "RUNNING")]; Sleep 10] 5 2)
   /\ exists seen : list JobStatus,
        2%Z = Z.of_nat (List.length seen)
        /\ [Print [PStr "Status @ 0 seconds"];
            Print [PStatus (mkStatus "QUEUED")]; Sleep 10;
            Print [PStr "Status @ 10 seconds"];
            Print [PStatus (mkStatus "RUNNING")]; Sleep 10]
           = trace Demo.start ++ polling_trace 0 seen)
  /\ (forall fuel,
        wait_loop Demo.sdk_job_error fuel "job on ibmqx4" 0 10 Demo.start = None)
  /\ (forall fuel,
        execute_remotely Demo.sdk_job_error fuel "bell" false Demo.start = None).
Proof.
  pose proof (wait_loop_polls_every_10s_until_DONE
                (Demo.sdk ["QUEUED"; "QUEUED"; "RUNNING"; "RUNNING"]))
    as (_ & Hexit & _).
  pose proof (wait_loop_polls_every_10s_until_DONE Demo.sdk_job_error)
    as (_ & _ & Hnever & _).
  assert (Hrun : wait_loop (Demo.sdk ["QUEUED"; "QUEUED"; "RUNNING"; "RUNNING"])
                   5 "job on ibmqx4" 0 10 Demo.start
                 = Some (Ret 2%Z,
                         mkSt [Print [PStr "Status @ 0 seconds"];
                               Print [PStatus (mkStatus "QUEUED")]; Sleep 10;
                               Print [PStr "Status @ 10 seconds"];
                               Print [PStatus (mkStatus "RUNNING")]; Sleep 10]
                              5 2)) by reflexivity.
  destruct (Hnever "job on ibmqx4") as [Hloop Hremote].
  - intros n. exists (mkStatus "ERROR"). split; [reflexivity | discriminate].
  - intros n. reflexivity.
  - split; [split; [exact Hrun |] | split].
    + destruct (Hexit _ _ _ _ _ Hrun) as (seen & Hl & Htr & _).
      exists seen. split; assumption.
    + intros fuel. apply Hloop.
    + intros fuel.
      apply (Hremote fuel "bell" false Demo.start ["ibmqx4"; "ibmq_16_melbourne"]
               "ibmqx4"); try reflexivity.
      left. reflexivity.
Defined.

(** C2 fails on the code: with [draw_circuit=True] and a drawer that raises,
    the exception leaves [execute_remotely]; the catch-all is not reached and
    its message is not printed. *)
Lemma execute_remotely_draw_failure_propagates :
  execute_remotely Demo.sdk_no_drawer 3 "bell" true Demo.start
  = Some (Raise (Demo.QiskitError "drawer unavailable"), mkSt [Draw "bell"] 0 0).
Proof. reflexivity. Qed.

(** Without a device the call prints the message and returns. *)
Lemma execute_remotely_catches_all_but_draw_witness :
  (draw Demo.sdk_no_device "bell" = Ret tt)
  /\ remote_body Demo.sdk_no_device 3 "bell" true (log (Draw "bell") Demo.start)
     = Some (Raise (Demo.QiskitError "no backend"), mkSt [Draw "bell"] 0 0)
  /\ execute_remotely Demo.sdk_no_device 3 "bell" true Demo.start
     = Some (Ret tt,
             mkSt [Draw "bell";
                   Print [PStr "All devices are currently unavailable."]] 0 0).
Proof.
  pose proof (execute_remotely_catches_all_but_draw Demo.sdk_no_device 3
                "bell" true Demo.start) as (_ & _ & Hcatch & _).
  split; [reflexivity | split; [reflexivity |]].
  apply (Hcatch (Demo.QiskitError "no backend") (log (Draw "bell") Demo.start)
           (mkSt [Draw "bell"] 0 0)).
  - right. repeat split.
  - reflexivity.
Defined.

(** Both settings of [draw_circuit] on the Bell circuit. *)
Lemma execute_locally_prints_then_displays_once_witness :
  (Aer_get_backend (Demo.sdk []) "qasm_simulator" = Ret "qasm_simulator"
   /\ execute (Demo.sdk []) "bell" "qasm_simulator" None None
      = Ret "job on qasm_simulator"
   /\ job_result (Demo.sdk []) "job on qasm_simulator"
      = Ret "result of job on qasm_simulator"
   /\ get_counts (Demo.sdk []) "result of job on qasm_simulator" "bell"
      = Ret [("00", 506%Z); ("11", 518%Z)])
  /\ execute_locally (Demo.sdk []) "bell" true Demo.start
     = Some (Ret tt,
             mkSt [Print [PStr "simulation: ";
                          PResult "result of job on qasm_simulator";
                          PCounts [("00", 506%Z); ("11", 518%Z)]];
                   Draw "bell"] 0 0)
  /\ execute_locally (Demo.sdk []) "bell" false Demo.start
     = Some (Ret tt,
             mkSt [Print [PStr "simulation: ";
                          PResult "result of job on qasm_simulator";
                          PCounts [("00", 506%Z); ("11", 518%Z)]];
                   Plt (Bar [0%Z; 1%Z] [506%Z; 518%Z] "center");
                   Plt (Xticks [0%Z; 1%Z] ["00"; "11"]);
                   Plt Show] 0 0).
Proof.
  split; [repeat split |].
  split.
  - rewrite (proj1 (execute_locally_prints_then_displays_once (Demo.sdk [])
               "bell" true Demo.start "qasm_simulator" "job on qasm_simulator"
               "result of job on qasm_simulator" [("00", 506%Z); ("11", 518%Z)]
               eq_refl eq_refl eq_refl eq_refl)).
    reflexivity.
  - rewrite (proj1 (execute_locally_prints_then_displays_once (Demo.sdk [])
               "bell" false Demo.start "qasm_simulator" "job on qasm_simulator"
               "result of job on qasm_simulator" [("00", 506%Z); ("11", 518%Z)]
               eq_refl eq_refl eq_refl eq_refl)).
    reflexivity.
Defined.

(** ** The [wine] helper *)

Section WineFacts.

Import Wine.

Context {R : Type}.

Variable w : Wine.Sklearn R.

Lemma bind_call {A B : Type} (o : outcome A) (k : A -> M (Wine.St R) B)
  (st : Wine.St R) :
  bind (Wine.call o) k st
  = match o with Ret a => k a st | Raise e => Some (Raise e, st) end.
Proof. destruct o; reflexivity. Qed.



(** A negative bound keeps all rows but the last [-n]. *)
Lemma slice_to_negative {A : Type} (n : Z) (l : list A) :
  (n < 0)%Z ->
  List.length (slice_to n l) = (List.length l - Z.to_nat (- n))%nat.
Proof.
  intros Hn. unfold slice_to.
  destruct (Z.leb_spec 0 n) as [Hle | _]; [lia |].
  rewrite length_firstn. lia.
Qed.


End WineFacts.


(** ** Exception handling across the notebooks *)

Section Handlers.

Import Wine.

Context {Circuit Backend Job Result Register R : Type}.

Variable w : TeachMeQ.SDK Circuit Backend Job Result Register.
Variable ws : Wine.Sklearn R.

(** [wine] with and without the plot: the data pipeline is the same. *)
Lemma wine_without_plot (training_size test_size n_features : Z)
  (st st' : Wine.St R) (r : Array R * Labels * Array R * Labels) :
  wine ws training_size test_size n_features false st = Some (Ret r, st') ->
  st' = st
  /\ forall plot_data : bool,
       wine ws training_size test_size n_features plot_data st
       = bind (if plot_data
               then plot ws training_size (fst (fst (fst r))) (snd (fst (fst r)))
               else ret tt)
              (fun _ => ret r) st.
Proof.
  intros H.
  assert (forall plot_data : bool,
             st' = st
             /\ wine ws training_size test_size n_features plot_data st
                = bind (if plot_data
                        then plot ws training_size (fst (fst (fst r)))
                               (snd (fst (fst r)))
                        else ret tt)
                       (fun _ => ret r) st) as Hall.
  { intros plot_data. unfold wine in *.
    repeat (rewrite bind_call in H; rewrite bind_call;
            match type of H with
            | match ?o with Ret _ => _ | Raise _ => _ end = _ =>
                destruct o as [? | ?]; [| discriminate H]
            end;
            repeat match goal with p : (_ * _)%type |- _ => destruct p end).
    unfold bind, ret in H. inversion H; subst. split; reflexivity. }
  split; [apply (Hall false) | intros pd; apply (Hall pd)].
Qed.

Ltac oracles :=
  repeat match goal with
         | |- context [match ?o with Ret _ => _ | Raise _ => _ end] =>
             destruct o as [? | ?] eqn:?
         | u : unit |- _ => destruct u
         end.

Ltac settle :=
  do 2 eexists; split; [reflexivity |];
  split;
  [ intros ?Hret; try discriminate Hret
  | intros ?e ?Hraise; try discriminate Hraise;
    try (injection Hraise as <-) ].

(** C3, as the code has it.  There are two handlers.  [wine] wraps the
    import of matplotlib in [try ... except ImportError] and raises a
    [NameError] of its own when the import fails with an [ImportError] (or a
    subclass); other exceptions of the import pass through.  In
    [execute_remotely] the bare [except] swallows whatever the [try] block
    raises.  [show_results], [execute_locally] and [new_circuit] neither
    catch nor raise: they return normally only if every call they made
    returned, and an exception they end with is one that a call of theirs
    raised.  [HS_product] fails exactly when numpy's [@] does. *)
Theorem handlers_are_in_execute_remotely_and_wine :
  (forall (training_size test_size n_features : Z) (st st' : Wine.St R)
          (r : Array R * Labels * Array R * Labels) (e : exn),
     wine ws training_size test_size n_features false st = Some (Ret r, st') ->
     import_matplotlib ws = Raise e ->
     wine ws training_size test_size n_features true st
     = Some (Raise (if isinstance e "ImportError"
                    then NameError "Matplotlib not installed. Please install it before plotting"
                    else e), st))
  /\ (forall (fuel : nat) (qc : Circuit) (st st2 : TeachMeQ.St Circuit Backend Result)
             (e : exn),
        remote_body w fuel qc false st = Some (Raise e, st2) ->
        execute_remotely w fuel qc false st
        = Some (Ret tt,
                log (Print [PStr "All devices are currently unavailable."]) st2))
  /\ (forall (D : Counts) (st : TeachMeQ.St Circuit Backend Result),
        exists o st',
          show_results w D st = Some (o, st')
          /\ (o = Ret tt ->
              plt w (Bar (range (List.length D)) (map snd D) "center") = Ret tt
              /\ plt w (Xticks (range (List.length D)) (map fst D)) = Ret tt
              /\ plt w Show = Ret tt)
          /\ (forall e, o = Raise e -> exists c, plt w c = Raise e))
  /\ (forall (qc : Circuit) (draw_circuit : bool)
             (st : TeachMeQ.St Circuit Backend Result),
        exists o st',
          execute_locally w qc draw_circuit st = Some (o, st')
          /\ (o = Ret tt ->
              exists b j r c,
                Aer_get_backend w "qasm_simulator" = Ret b
                /\ execute w qc b None None = Ret j
                /\ job_result w j = Ret r
                /\ get_counts w r qc = Ret c
                /\ if draw_circuit then draw w qc = Ret tt
                   else plt w (Bar (range (List.length c)) (map snd c) "center")
                        = Ret tt
                        /\ plt w (Xticks (range (List.length c)) (map fst c))
                           = Ret tt
                        /\ plt w Show = Ret tt)
          /\ (forall e, o = Raise e ->
                Aer_get_backend w "qasm_simulator" = Raise e
                \/ (exists b, execute w qc b None None = Raise e)
                \/ (exists j, job_result w j = Raise e)
                \/ (exists r, get_counts w r qc = Raise e)
                \/ draw w qc = Raise e
                \/ (exists c, plt w c = Raise e)))
  /\ (forall (size : Z) (st : TeachMeQ.St Circuit Backend Result),
        exists o st',
          new_circuit w size st = Some (o, st')
          /\ ((exists v, o = Ret v) ->
              exists qr cr c,
                QuantumRegister w size = Ret qr
                /\ ClassicalRegister w size = Ret cr
                /\ QuantumCircuit w qr cr = Ret c
                /\ o = Ret (qr, cr, c))
          /\ (forall e, o = Raise e ->
                QuantumRegister w size = Raise e
                \/ ClassicalRegister w size = Raise e
                \/ (exists qr cr, QuantumCircuit w qr cr = Raise e)))
  /\ (forall A B : Tomography.Matrix,
        Tomography.HS_product A B = None
        <-> Tomography.py_matmul (Tomography.transpose (Tomography.conj B)) A
            = None).
Proof.
  splits.
  - intros training_size test_size n_features st st' r e H Himp.
    destruct (wine_without_plot _ _ _ _ _ _ H) as [_ Hplot].
    rewrite (Hplot true).
    unfold plot, bind, try_except_class, Wine.call, raise. rewrite Himp.
    destruct (isinstance e "ImportError"); reflexivity.
  - intros fuel qc st st2 e H.
    unfold execute_remotely, try_except, bind, ret, print. rewrite H.
    reflexivity.
  - intros D st.
    unfold show_results, bind, call_plt. oracles; settle; eauto.
  - intros qc draw_circuit st.
    unfold execute_locally, show_results, bind, TeachMeQ.call, print,
      call_draw, call_plt.
    destruct draw_circuit; oracles; settle; eauto 12.
  - intros size st.
    unfold new_circuit, bind, TeachMeQ.call, ret.
    oracles; do 2 eexists; (split; [reflexivity |]);
      (split;
       [ intros [v Hv]; try discriminate Hv; eauto 10
       | intros e0 He0; try discriminate He0; injection He0 as <-; eauto 8 ]).
  - intros A B. unfold Tomography.HS_product.
    destruct (Tomography.py_matmul _ A); split; intros H;
      try discriminate H; reflexivity.
Qed.

End Handlers.

(** C3 fails on the code: [wine] has a handler and raises.  Where matplotlib
    is missing, the import raises [ModuleNotFoundError], which
    [except ImportError] catches, and [wine] raises [NameError] instead. *)
Lemma wine_raises_NameError :
  Wine.import_matplotlib
    (Demo.sklearn (Raise (Demo.ModuleNotFoundError "No module named matplotlib")))
  = Raise (Exn ["ModuleNotFoundError"; "ImportError"; "Exception"; "BaseException"]
               "No module named matplotlib")
  /\ Wine.wine
       (Demo.sklearn (Raise (Demo.ModuleNotFoundError "No module named matplotlib")))
       3 2 2 true []
     = Some (Raise (Exn ["NameError"; "Exception"; "BaseException"]
                        "Matplotlib not installed. Please install it before plotting"),
             []).
Proof. split; reflexivity. Qed.

(** The same through the theorem, and an exception of another class passing
    through. *)
Lemma handlers_are_in_execute_remotely_and_wine_witness :
  Wine.wine
    (Demo.sklearn (Raise (Demo.ModuleNotFoundError "No module named matplotlib")))
    3 2 2 true []
  = Some (Raise (Wine.NameError
                   "Matplotlib not installed. Please install it before plotting"),
          [])
  /\ Wine.wine (Demo.sklearn (Raise (Demo.QiskitError "broken backend")))
       3 2 2 true []
     = Some (Raise (Demo.QiskitError "broken backend"), []).
Proof.
  split.
  - apply (proj1 (handlers_are_in_execute_remotely_and_wine (Demo.sdk [])
                    (Demo.sklearn (Raise (Demo.ModuleNotFoundError
                                            "No module named matplotlib"))))
             3%Z 2%Z 2%Z [] []
             ([[1; 2]; [3; 4]; [5; 6]], [0; 1; 2], [[7; 8]; [9; 10]], [0; 1])%Z
             (Demo.ModuleNotFoundError "No module named matplotlib")
             eq_refl eq_refl).
  - apply (proj1 (handlers_are_in_execute_remotely_and_wine (Demo.sdk [])
                    (Demo.sklearn (Raise (Demo.QiskitError "broken backend"))))
             3%Z 2%Z 2%Z [] []
             ([[1; 2]; [3; 4]; [5; 6]], [0; 1; 2], [[7; 8]; [9; 10]], [0; 1])%Z
             (Demo.QiskitError "broken backend")
             eq_refl eq_refl).
Defined.

(** ** Tomography: exact linear algebra over the Gaussian rationals *)

Section LinearAlgebra.

Import Tomography.

Local Open Scope Q_scope.

Ltac cring :=
  unfold Ceq, Cadd, Cmul, Copp, Csub, Cconj, C0, C1; cbn [re im];
  rewrite ?Qred_correct; split; ring.

Lemma Ceq_refl (a : C) : Ceq a a.
Proof. split; reflexivity. Qed.

Lemma Ceq_sym (a b : C) : Ceq a b -> Ceq b a.
Proof. intros [H1 H2]. split; symmetry; assumption. Qed.

Lemma Ceq_trans (a b c : C) : Ceq a b -> Ceq b c -> Ceq a c.
Proof. intros [H1 H2] [H3 H4]. split; etransitivity; eassumption. Qed.

#[local] Instance Ceq_equiv : Equivalence Ceq.
Proof. split; [exact Ceq_refl | exact Ceq_sym | exact Ceq_trans]. Qed.

#[local] Instance Cadd_proper : Proper (Ceq ==> Ceq ==> Ceq) Cadd.
Proof.
  intros a a' [Ha1 Ha2] b b' [Hb1 Hb2]. unfold Ceq, Cadd. cbn [re im].
  rewrite !Qred_correct, Ha1, Ha2, Hb1, Hb2. split; reflexivity.
Qed.

#[local] Instance Cmul_proper : Proper (Ceq ==> Ceq ==> Ceq) Cmul.
Proof.
  intros a a' [Ha1 Ha2] b b' [Hb1 Hb2]. unfold Ceq, Cmul. cbn [re im].
  rewrite !Qred_correct, Ha1, Ha2, Hb1, Hb2. split; reflexivity.
Qed.

Lemma Veq_refl (v : Vector) : Veq v v.
Proof. induction v; constructor; [reflexivity | assumption]. Qed.

Lemma Veq_sym (u v : Vector) : Veq u v -> Veq v u.
Proof. induction 1; constructor; [symmetry |]; assumption. Qed.

Lemma Veq_trans (u v t : Vector) : Veq u v -> Veq v t -> Veq u t.
Proof.
  intros H. revert t.
  induction H as [| a b u v Hab Huv IH]; intros t Ht; inversion Ht; subst.
  - constructor.
  - constructor.
    + apply Ceq_trans with b; assumption.
    + apply IH. assumption.
Qed.


Lemma Meq_refl (A : Matrix) : Meq A A.
Proof. induction A; constructor; [apply Veq_refl | assumption]. Qed.

Lemma Veq_map (A : Type) (f g : A -> C) (l : list A) :
  (forall x, Ceq (f x) (g x)) -> Veq (map f l) (map g l).
Proof. intros H. induction l; simpl; constructor; auto. Qed.

Lemma Ceqb_sound (a b : C) : Ceqb a b = true -> Ceq a b.
Proof.
  unfold Ceqb. intros H. apply andb_true_iff in H as [H1 H2].
  split; apply Qeq_bool_iff; assumption.
Qed.

Lemma Veqb_sound (u : Vector) : forall v, Veqb u v = true -> Veq u v.
Proof.
  induction u as [| a u IH]; intros [| b v] H; try discriminate H.
  - constructor.
  - simpl in H. apply andb_true_iff in H as [H1 H2].
    constructor; [apply Ceqb_sound; assumption | apply IH; assumption].
Qed.

Lemma Meqb_sound (A : Matrix) : forall B, Meqb A B = true -> Meq A B.
Proof.
  induction A as [| u A IH]; intros [| v B] H; try discriminate H.
  - constructor.
  - simpl in H. apply andb_true_iff in H as [H1 H2].
    constructor; [apply Veqb_sound; assumption | apply IH; assumption].
Qed.

Lemma rectangular_rows (A : Matrix) (n : nat) :
  rectangular A && Nat.eqb (ncols A) n = true ->
  Forall (fun r => List.length r = n) A.
Proof.
  intros H. apply andb_true_iff in H as [H1 H2].
  apply Nat.eqb_eq in H2. subst n.
  unfold rectangular in H1. rewrite forallb_forall in H1.
  apply Forall_forall. intros r Hr. apply Nat.eqb_eq. apply H1. assumption.
Qed.

(** *** The scalar product is linear in its first argument *)

Lemma dot_zeros (n : nat) : forall v, Ceq (dot (repeat C0 n) v) C0.
Proof.
  induction n as [| n IH]; intros [| x v]; simpl; try reflexivity.
  rewrite IH. cring.
Qed.

Lemma dot_vadd (x : Vector) :
  forall y v, List.length x = List.length y ->
    Ceq (dot (vadd x y) v) (Cadd (dot x v) (dot y v)).
Proof.
  induction x as [| a x IH]; intros [| b y] [| c v] H; simpl in *;
    try discriminate H; try cring.
  rewrite IH by congruence. cring.
Qed.

Lemma dot_vscale (a : C) (b : Vector) :
  forall v, Ceq (dot (vscale a b) v) (Cmul a (dot b v)).
Proof.
  induction b as [| x b IH]; intros [| c v]; simpl; try cring.
  rewrite IH. cring.
Qed.

Lemma dot_Veq (u u' : Vector) :
  Veq u u' -> forall v, Ceq (dot u v) (dot u' v).
Proof.
  induction 1 as [| a a' u u' Ha Hu IH]; intros [| c v]; simpl;
    try reflexivity.
  rewrite Ha, IH. reflexivity.
Qed.

Lemma vadd_length (x : Vector) :
  forall y, List.length (vadd x y) = Nat.min (List.length x) (List.length y).
Proof.
  induction x as [| a x IH]; intros [| b y]; simpl; try reflexivity.
  rewrite IH. reflexivity.
Qed.

Lemma vecmat_length (n : nat) (B : Matrix) :
  Forall (fun r => List.length r = n) B ->
  forall r, List.length (vecmat n r B) = n.
Proof.
  induction 1 as [| b B Hb HB IH]; intros [| a r]; simpl;
    try apply repeat_length.
  rewrite vadd_length. unfold vscale. rewrite length_map, Hb, IH.
  apply Nat.min_id.
Qed.

(** *** [(A @ B) @ v = A @ (B @ v)] *)

Lemma dot_vecmat (n : nat) (B : Matrix) (v : Vector) :
  Forall (fun r => List.length r = n) B ->
  forall r, Ceq (dot (vecmat n r B) v) (dot r (matvec B v)).
Proof.
  induction 1 as [| b B Hb HB IH]; intros [| a r]; simpl;
    try apply dot_zeros.
  rewrite dot_vadd.
  - rewrite dot_vscale, IH. reflexivity.
  - unfold vscale. rewrite length_map, Hb.
    symmetry. apply vecmat_length. assumption.
Qed.

Lemma matvec_matmul (A B : Matrix) (v : Vector) :
  Forall (fun r => List.length r = ncols B) B ->
  Veq (matvec (matmul A B) v) (matvec A (matvec B v)).
Proof.
  intros HB. unfold matvec at 1 3, matmul. rewrite map_map.
  apply Veq_map. intros r. apply dot_vecmat. assumption.
Qed.

Lemma matvec_Meq (A A' : Matrix) (v : Vector) :
  Meq A A' -> Veq (matvec A v) (matvec A' v).
Proof.
  induction 1 as [| u u' A A' Hu HA IH]; simpl; constructor.
  - apply dot_Veq. assumption.
  - assumption.
Qed.

Lemma matvec_identity (n : nat) :
  forall v, List.length v = n -> Veq (matvec (identity n) v) v.
Proof.
  induction n as [| n IH]; intros [| x v] H; try discriminate H.
  - constructor.
  - cbn [identity matvec map]. constructor.
    + cbn [dot]. rewrite dot_zeros. cring.
    + rewrite map_map.
      apply Veq_trans with (matvec (identity n) v).
      * unfold matvec. apply Veq_map. intros r. cbn [dot]. cring.
      * apply IH. simpl in H. congruence.
Qed.

(** A left inverse recovers every vector. *)
Lemma left_inverse_recovers (L A : Matrix) (n : nat) :
  Forall (fun r => List.length r = ncols A) A ->
  Meq (matmul L A) (identity n) ->
  forall v, List.length v = n -> Veq (matvec L (matvec A v)) v.
Proof.
  intros HA HLA v Hv.
  apply Veq_trans with (matvec (matmul L A) v).
  - apply Veq_sym. apply matvec_matmul. assumption.
  - apply Veq_trans with (matvec (identity n) v).
    + apply matvec_Meq. assumption.
    + apply matvec_identity. assumption.
Qed.

End LinearAlgebra.

(** ** Tomography: the notebook's matrices *)

Section TomographyFacts.

Import Tomography.

Local Open Scope Q_scope.

Lemma Qsquare_nonneg (x : Q) : 0 <= x * x.
Proof. unfold Qle, Qmult. simpl. nia. Qed.


(** The linear inversion matrix as the notebook's text gives it. *)
Lemma linear_inversion_matrix_value :
  linear_inversion_matrix
  = Some [[mkC (1 # 6) 0; mkC (1 # 6) 0; mkC (1 # 6) 0; mkC (1 # 6) 0;
           mkC (2 # 3) 0; mkC (-1 # 3) 0];
          [mkC (1 # 2) 0; mkC (-1 # 2) 0; mkC 0 (1 # 2); mkC 0 (-1 # 2);
           C0; C0];
          [mkC (1 # 2) 0; mkC (-1 # 2) 0; mkC 0 (-1 # 2); mkC 0 (1 # 2);
           C0; C0];
          [mkC (1 # 6) 0; mkC (1 # 6) 0; mkC (1 # 6) 0; mkC (1 # 6) 0;
           mkC (-1 # 3) 0; mkC (2 # 3) 0]].
Proof. vm_compute. reflexivity. Qed.

Lemma linear_inversion_matrix_left_inverse :
  exists L, linear_inversion_matrix = Some L
            /\ py_matmul L M = Some (identity 4)
            /\ ncols M = 4%nat.
Proof.
  rewrite linear_inversion_matrix_value. eexists. split; [reflexivity |].
  split; vm_compute; reflexivity.
Qed.

Lemma linear_inversion_matrix_2_left_inverse :
  exists L, linear_inversion_matrix_2 = Some L
            /\ py_matmul L M_2 = Some (identity 16)
            /\ ncols M_2 = 16%nat.
Proof.
  match eval vm_compute in linear_inversion_matrix_2 with
  | Some ?L => exists L
  end.
  split; [vm_compute; reflexivity |].
  split; vm_compute; reflexivity.
Qed.

(** Where [L @ A] is the identity, [L @ (A @ v)] gives [v] back. *)
Lemma py_left_inverse_recovers (L A : Matrix) (n : nat) :
  py_matmul L A = Some (identity n) ->
  ncols A = n ->
  forall v, List.length v = n ->
    exists p r, py_matvec A v = Some p
                /\ py_matvec L p = Some r
                /\ Veq r v.
Proof.
  intros HLA Hn v Hv. unfold py_matmul in HLA.
  destruct (rectangular L && rectangular A && Nat.eqb (ncols L) (nrows A))
    eqn:Hshape; [| discriminate HLA].
  injection HLA as HLA.
  apply andb_true_iff in Hshape as [Hshape HLn].
  apply andb_true_iff in Hshape as [HL HA].
  apply Nat.eqb_eq in HLn.
  exists (matvec A v), (matvec L (matvec A v)).
  assert (Hlen : List.length (matvec A v) = nrows A)
    by (unfold matvec; apply length_map).
  unfold py_matvec. rewrite HA, HL, Hn, Hv, Hlen, HLn, !Nat.eqb_refl. simpl.
  splits; try reflexivity.
  apply left_inverse_recovers with n.
  - apply rectangular_rows. rewrite HA. apply Nat.eqb_refl.
  - rewrite HLA. apply Meq_refl.
  - assumption.
Qed.

(** C9.  Both linear inversion matrices exist, and multiplied with their
    [M] they give the identity exactly ([4 x 4] and [16 x 16]); so for every
    flattened matrix [rho] the vector [p = M @ rho] is sent back to [rho]. *)
Theorem linear_inversion_is_exact_left_inverse :
  (exists L,
      linear_inversion_matrix = Some L
      /\ py_matmul L M = Some (identity 4)
      /\ forall rho : Vector, List.length rho = 4%nat ->
           exists p r, py_matvec M rho = Some p
                       /\ py_matvec L p = Some r
                       /\ Veq r rho)
  /\ (exists L2,
         linear_inversion_matrix_2 = Some L2
         /\ py_matmul L2 M_2 = Some (identity 16)
         /\ forall rho : Vector, List.length rho = 16%nat ->
              exists p r, py_matvec M_2 rho = Some p
                          /\ py_matvec L2 p = Some r
                          /\ Veq r rho).
Proof.
  split.
  - destruct linear_inversion_matrix_left_inverse as (L & HL & HLM & Hn).
    exists L. splits; try assumption.
    apply py_left_inverse_recovers; assumption.
  - destruct linear_inversion_matrix_2_left_inverse as (L & HL & HLM & Hn).
    exists L. splits; try assumption.
    apply py_left_inverse_recovers; assumption.
Qed.

(** *** Reshaping *)






End TomographyFacts.


(** The Bell state through the theorems. *)
Lemma linear_inversion_is_exact_left_inverse_witness :
  List.length (Tomography.flatten Demo.bell) = 16%nat
  /\ exists L2 p r,
       Tomography.linear_inversion_matrix_2 = Some L2
       /\ Tomography.py_matvec Tomography.M_2 (Tomography.flatten Demo.bell)
          = Some p
       /\ Tomography.py_matvec L2 p = Some r
       /\ Tomography.Veq r (Tomography.flatten Demo.bell).
Proof.
  split; [reflexivity |].
  destruct linear_inversion_is_exact_left_inverse
    as (_ & L2 & HL2 & _ & Hrec).
  destruct (Hrec (Tomography.flatten Demo.bell) eq_refl) as (p & r & Hp & Hr & Hv).
  exists L2, p, r. repeat split; assumption.
Defined.


(** ** What the projector constants establish *)

Section TomographyInvariants.

Import Tomography.

Local Open Scope Q_scope.

Ltac literal P := let v := eval vm_compute in P in change P with v.

(** C6, as the code has it.  Count dictionaries carry no invariant of the
    repository's, but its density-matrix constants do: the two projectors of
    each basis sum to the identity and differ by the Pauli matrix; each of
    the six projectors has unit trace, is Hermitian and idempotent, and is
    positive semidefinite; [np.kron] keeps this up: each of the 36 two-qubit
    projectors has unit trace, is Hermitian and idempotent, and the four
    projectors of every pair of bases sum to the identity. *)
Theorem projector_constants_are_complete_pure_states :
  Forall (fun b => madd (fst b) (snd b) = I) bases
  /\ (msub PX0 PX1 = X /\ msub PY0 PY1 = Y /\ msub PZ0 PZ1 = Z)
  /\ Forall (fun P => pure_state P = true) projectors
  /\ (forall P, In P projectors ->
        forall psi : Vector, List.length psi = 2%nat ->
          im (expectation P psi) == 0 /\ 0 <= re (expectation P psi))
  /\ Forall (fun P => pure_state P = true) projectors_2
  /\ Forall (fun a =>
       Forall (fun b =>
         madd (madd (kron (fst a) (fst b)) (kron (fst a) (snd b)))
              (madd (kron (snd a) (fst b)) (kron (snd a) (snd b)))
         = identity 4) bases) bases.
Proof.
  splits.
  - repeat constructor.
  - vm_compute. reflexivity.
  - vm_compute. reflexivity.
  - vm_compute. reflexivity.
  - apply Forall_forall, forallb_forall. vm_compute. reflexivity.
  - intros P HP [| [a1 a2] [| [b1 b2] [| ? ?]]] Hlen; try discriminate Hlen.
    pose proof (Qsquare_nonneg (a1 + b1)). pose proof (Qsquare_nonneg (a2 + b2)).
    pose proof (Qsquare_nonneg (a1 - b1)). pose proof (Qsquare_nonneg (a2 - b2)).
    pose proof (Qsquare_nonneg (a1 + b2)). pose proof (Qsquare_nonneg (a2 - b1)).
    pose proof (Qsquare_nonneg (a1 - b2)). pose proof (Qsquare_nonneg (a2 + b1)).
    pose proof (Qsquare_nonneg a1). pose proof (Qsquare_nonneg a2).
    pose proof (Qsquare_nonneg b1). pose proof (Qsquare_nonneg b2).
    unfold projectors in HP. simpl in HP.
    repeat destruct HP as [<- | HP]; try contradiction.
    all: match goal with |- context [expectation ?P _] => literal P end.
    all: unfold expectation; cbn [dot matvec map Cconj Cadd Cmul C0 re im];
      rewrite ?Qred_correct; split; [ring | lra].
  - apply Forall_forall, forallb_forall. vm_compute. reflexivity.
  - repeat constructor.
Qed.

End TomographyInvariants.

(** C6 fails on the code: the constants of the projector cell satisfy the
    completeness relation of every basis and have unit trace. *)
Lemma projectors_sum_to_identity :
  Tomography.madd Tomography.PX0 Tomography.PX1 = Tomography.I
  /\ Tomography.madd Tomography.PY0 Tomography.PY1 = Tomography.I
  /\ Tomography.madd Tomography.PZ0 Tomography.PZ1 = Tomography.I
  /\ map Tomography.trace Tomography.projectors = repeat Tomography.C1 6.
Proof. repeat split. Qed.

(** The state |+> in the X basis. *)
Lemma projector_constants_are_complete_pure_states_witness :
  In Tomography.PX0 Tomography.projectors
  /\ List.length [Tomography.C1; Tomography.C1] = 2%nat
  /\ (Tomography.im
        (Tomography.expectation Tomography.PX0 [Tomography.C1; Tomography.C1])
      == 0)%Q
  /\ (0 <= Tomography.re
             (Tomography.expectation Tomography.PX0
                [Tomography.C1; Tomography.C1]))%Q.
Proof.
  assert (Hin : In Tomography.PX0 Tomography.projectors) by (left; reflexivity).
  split; [exact Hin | split; [reflexivity |]].
  exact (proj1 (proj2 (proj2 (proj2
           projector_constants_are_complete_pure_states)))
           Tomography.PX0 Hin [Tomography.C1; Tomography.C1] eq_refl).
Defined.

(** ** The repository's functions: which are deterministic, which are glue *)

Section InventoryFacts.

Import Tomography.

Local Open Scope Q_scope.



Variables Circuit Backend Job Result Register R : Type.


End InventoryFacts.



(** * Further properties of the helpers *)

(** ** Remote execution: what a run prints, draws and plots *)

Section TeachMeQMore.

Import TeachMeQ TraceSpec.

Context {Circuit Backend Job Result Register : Type}.

Abbreviation SDK' := (TeachMeQ.SDK Circuit Backend Job Result Register).
Abbreviation St' := (TeachMeQ.St Circuit Backend Result).
Abbreviation Event' := (TeachMeQ.Event Circuit Backend Result).

Variable w : SDK'.

Section Appends.

Variable P : Event' -> Prop.

Lemma appends_ret {A} (a : A) : appends P (ret a).
Proof.
  intros st o st' H. inversion H; subst. exists []. rewrite app_nil_r.
  split; [reflexivity | constructor].
Qed.

Lemma appends_call {A} (x : outcome A) : appends P (TeachMeQ.call x).
Proof.
  intros st o st' H. inversion H; subst. exists []. rewrite app_nil_r.
  split; [reflexivity | constructor].
Qed.

Lemma appends_status (job : Job) : appends P (status w job).
Proof.
  intros st o st' H. inversion H; subst. exists []. simpl.
  rewrite app_nil_r. split; [reflexivity | constructor].
Qed.

Lemma appends_print (args : list (Printed Backend Result)) :
  P (Print args) -> appends P (print args).
Proof.
  intros HP st o st' H. inversion H; subst. exists [Print args].
  split; [reflexivity | repeat constructor; assumption].
Qed.

Lemma appends_sleep (secs : Z) : P (Sleep secs) -> appends P (sleep w secs).
Proof.
  intros HP st o st' H. inversion H; subst. exists [Sleep secs].
  split; [reflexivity | repeat constructor; assumption].
Qed.

Lemma appends_draw (qc : Circuit) : P (Draw qc) -> appends P (call_draw w qc).
Proof.
  intros HP st o st' H. inversion H; subst. exists [Draw qc].
  split; [reflexivity | repeat constructor; assumption].
Qed.

Lemma appends_plt (c : PltCall) : P (Plt c) -> appends P (call_plt w c).
Proof.
  intros HP st o st' H. inversion H; subst. exists [Plt c].
  split; [reflexivity | repeat constructor; assumption].
Qed.

Lemma appends_bind {A B} (m : M St' A) (k : A -> M St' B) :
  appends P m -> (forall a, appends P (k a)) -> appends P (bind m k).
Proof.
  intros Hm Hk st o st' H. unfold bind in H.
  destruct (m st) as [[[a | e] st1] |] eqn:Hrun; [| | discriminate H].
  - destruct (Hm _ _ _ Hrun) as (new1 & Ht1 & HP1).
    destruct (Hk a _ _ _ H) as (new2 & Ht2 & HP2).
    exists (new1 ++ new2). rewrite Ht2, Ht1, app_assoc.
    split; [reflexivity | apply Forall_app; split; assumption].
  - inversion H; subst. apply (Hm _ _ _ Hrun).
Qed.

Lemma appends_try {A} (m : M St' A) (h : exn -> M St' A) :
  appends P m -> (forall e, appends P (h e)) -> appends P (try_except m h).
Proof.
  intros Hm Hh st o st' H. unfold try_except in H.
  destruct (m st) as [[[a | e] st1] |] eqn:Hrun; [| | discriminate H].
  - inversion H; subst. apply (Hm _ _ _ Hrun).
  - destruct (Hm _ _ _ Hrun) as (new1 & Ht1 & HP1).
    destruct (Hh e _ _ _ H) as (new2 & Ht2 & HP2).
    exists (new1 ++ new2). rewrite Ht2, Ht1, app_assoc.
    split; [reflexivity | apply Forall_app; split; assumption].
Qed.

Lemma appends_wait_loop (job : Job) (interval : Z) :
  (forall args, P (Print args)) -> P (Sleep interval) ->
  forall fuel lapse, appends P (wait_loop w fuel job lapse interval).
Proof.
  intros Hprint Hsleep. induction fuel as [| fuel IH]; intros lapse.
  - intros st o st' H. discriminate H.
  - cbn [wait_loop]. apply appends_bind; [apply appends_status |].
    intros s. destruct (negb (name s =? "DONE")%string).
    + apply appends_bind; [apply appends_print, Hprint |]. intros _.
      apply appends_bind; [apply appends_status |]. intros s'.
      apply appends_bind; [apply appends_print, Hprint |]. intros _.
      apply appends_bind; [apply appends_sleep, Hsleep |]. intros _.
      apply IH.
    + apply appends_ret.
Qed.

Lemma appends_show_results (D : Counts) :
  (forall c, P (Plt c)) -> appends P (show_results w D).
Proof.
  intros Hplt. unfold show_results.
  repeat (apply appends_bind; [apply appends_plt, Hplt | intros _]).
  apply appends_plt, Hplt.
Qed.

Lemma appends_remote_body (fuel : nat) (qc : Circuit) (draw_circuit : bool) :
  (forall args, P (Print args)) -> (forall secs, P (Sleep secs)) ->
  (draw_circuit = false -> forall c, P (Plt c)) ->
  appends P (remote_body w fuel qc draw_circuit).
Proof.
  intros Hprint Hsleep Hplt. unfold remote_body.
  apply appends_bind; [apply appends_call | intros devices].
  apply appends_bind; [apply appends_call | intros device].
  apply appends_bind; [apply appends_print, Hprint | intros _].
  apply appends_bind; [apply appends_call | intros job].
  apply appends_bind;
    [apply appends_wait_loop; [exact Hprint | apply Hsleep] | intros _].
  apply appends_bind; [apply appends_status | intros s].
  apply appends_bind; [apply appends_print, Hprint | intros _].
  apply appends_bind; [apply appends_call | intros result].
  apply appends_bind; [apply appends_call | intros counts].
  apply appends_bind; [apply appends_print, Hprint | intros _].
  destruct draw_circuit; simpl.
  - apply appends_ret.
  - apply appends_show_results. apply Hplt. reflexivity.
Qed.

End Appends.

(** X1.  With [draw_circuit] the circuit is drawn first and once, and nothing is
    plotted; without it nothing is drawn.  This holds for every run that
    ends, whatever fails on the way. *)
Theorem execute_remotely_draws_first_or_not_at_all
  (fuel : nat) (qc : Circuit) (draw_circuit : bool) (st st' : St')
  (o : outcome unit) :
  execute_remotely w fuel qc draw_circuit st = Some (o, st') ->
  exists new : list Event',
    trace st' = trace st ++ new
    /\ if draw_circuit
       then exists rest,
              new = Draw qc :: rest
              /\ Forall (fun e => is_draw e = false /\ is_plot e = false) rest
       else Forall (fun e => is_draw e = false) new.
Proof.
  intros H. unfold execute_remotely in H.
  destruct draw_circuit.
  - unfold bind at 1, call_draw in H.
    destruct (draw w qc) as [[] | e].
    + assert (Hrest : appends (fun e => is_draw e = false /\ is_plot e = false)
                        (try_except (remote_body w fuel qc true)
                           (fun _ => print [PStr unavailable]))).
      { apply appends_try.
        - apply appends_remote_body; try (intros; split; reflexivity).
          intros Hf. discriminate Hf.
        - intros e. apply appends_print. split; reflexivity. }
      destruct (Hrest _ _ _ H) as (rest & Htr & Hq).
      exists (Draw qc :: rest). split.
      * rewrite Htr. simpl. rewrite <- app_assoc. reflexivity.
      * exists rest. split; [reflexivity | assumption].
    + inversion H; subst. exists [Draw qc]. split; [reflexivity |].
      exists []. split; [reflexivity | constructor].
  - unfold bind at 1, ret in H.
    assert (Hrest : appends (fun e => is_draw e = false)
                      (try_except (remote_body w fuel qc false)
                         (fun _ => print [PStr unavailable]))).
    { apply appends_try.
      - apply appends_remote_body; reflexivity.
      - intros e. apply appends_print. reflexivity. }
    apply (Hrest _ _ _ H).
Qed.

(** X2.  A run in which every call answers and the job is done at the [n]-th test
    of the loop condition: what it leaves in the trace, and how often it asks
    for the status ([2 n + 2] times) and sleeps ([n] times). *)
Theorem execute_remotely_success_trace
  (fuel : nat) (qc : Circuit) (draw_circuit : bool) (st : St')
  (devices : list Backend) (device : Backend) (job : Job) (n : nat)
  (s_end : JobStatus) (result : Result) (counts : Counts) :
  IBMQ_backends w false = Ret devices ->
  least_busy w devices = Ret device ->
  execute w qc device (Some 1024%Z) (Some 10%Z) = Ret job ->
  (draw_circuit = true -> draw w qc = Ret tt) ->
  (forall k, (k < n)%nat ->
     (exists s, job_status w job (polls st + 2 * k) = Ret s /\ name s <> "DONE")
     /\ (exists s', job_status w job (polls st + 2 * k + 1) = Ret s')
     /\ time_sleep w 10 (sleeps st + k) = Ret tt) ->
  (exists s, job_status w job (polls st + 2 * n) = Ret s /\ name s = "DONE") ->
  job_status w job (polls st + 2 * n + 1) = Ret s_end ->
  job_result w job = Ret result ->
  get_counts w result qc = Ret counts ->
  (draw_circuit = false ->
   plt w (Bar (range (List.length counts)) (map snd counts) "center") = Ret tt
   /\ plt w (Xticks (range (List.length counts)) (map fst counts)) = Ret tt
   /\ plt w Show = Ret tt) ->
  (n < fuel)%nat ->
  exists seen : list JobStatus,
    List.length seen = n
    /\ execute_remotely w fuel qc draw_circuit st
       = Some (Ret tt,
               mkSt (trace st
                     ++ (if draw_circuit then [Draw qc] else [])
                     ++ [Print [PStr "Running on current least busy device: ";
                                PBackend device]]
                     ++ polling_trace 0 seen
                     ++ [Print [PStatus s_end];
                         Print [PStr "experiment: "; PResult result;
                                PCounts counts]]
                     ++ (if draw_circuit then []
                         else [Plt (Bar (range (List.length counts))
                                        (map snd counts) "center");
                               Plt (Xticks (range (List.length counts))
                                           (map fst counts));
                               Plt Show]))
                    (polls st + 2 * n + 2) (sleeps st + n)).
Proof.
  intros Hdev Hlb Hex Hdraw Hrounds Hdone Hend Hres Hcounts Hplt Hfuel.
  set (st1 := log (Print [PStr "Running on current least busy device: ";
                          PBackend device])
                  (if draw_circuit then log (Draw qc) st else st)).
  assert (Hp1 : polls st1 = polls st) by (destruct draw_circuit; reflexivity).
  assert (Hs1 : sleeps st1 = sleeps st) by (destruct draw_circuit; reflexivity).
  destruct (wait_loop_returns w job n 0 st1) with (fuel := fuel)
    as (st2 & Hloop); try assumption.
  { rewrite Hp1, Hs1. exact Hrounds. }
  { rewrite Hp1. exact Hdone. }
  destruct (wait_loop_exit w job fuel 0 st1 _ st2 Hloop)
    as (seen & Hl & Htr & Hp & Hs & _ & _).
  assert (Hn : List.length seen = n) by lia.
  exists seen. split; [exact Hn |].
  rewrite Hp1 in Hp. rewrite Hs1 in Hs.
  destruct st2 as [tr2 p2 s2]. cbn [trace polls sleeps] in Htr, Hp, Hs.
  assert (Hend' : job_status w job p2 = Ret s_end).
  { rewrite Hp, Hn. rewrite <- Hend. f_equal. }
  unfold execute_remotely, remote_body, try_except, show_results, bind,
    TeachMeQ.call, print, call_draw, call_plt, status, ret.
  destruct draw_circuit.
  - rewrite (Hdraw eq_refl), Hdev, Hlb, Hex. fold st1. rewrite Hloop.
    simpl. rewrite Hend', Hres, Hcounts. simpl.
    unfold log. simpl. rewrite Htr. subst st1. simpl.
    rewrite <- !app_assoc. simpl.
    repeat f_equal; lia.
  - destruct (Hplt eq_refl) as (Hbar & Hticks & Hshow).
    rewrite Hdev, Hlb, Hex. fold st1. rewrite Hloop.
    simpl. rewrite Hend', Hres, Hcounts. simpl.
    rewrite Hbar, Hticks, Hshow.
    unfold log. simpl. rewrite Htr. subst st1. simpl.
    rewrite <- !app_assoc. simpl.
    repeat f_equal; lia.
Qed.

Ltac inside H :=
  repeat match type of H with
         | context [match ?o with _ => _ end] =>
             destruct o eqn:?; try discriminate H
         end.

(** The last event of a [try] block that came to its end is the print of
    the experiment or the last plot. *)
Lemma remote_body_last_event
  (fuel : nat) (qc : Circuit) (draw_circuit : bool) (st st' : St') :
  remote_body w fuel qc draw_circuit st = Some (Ret tt, st') ->
  exists before last_event,
    trace st' = before ++ [last_event]
    /\ last_event <> Print [PStr unavailable].
Proof.
  intros H.
  unfold remote_body, show_results, bind, TeachMeQ.call, print, call_plt,
    status, ret, log in H.
  inside H; inversion H; subst; simpl;
    do 2 eexists; (split; [reflexivity | discriminate]).
Qed.

(** X3.  A caller learns of a failed remote run from the output alone: once the
    drawing is over the call returns normally in every case, and the static
    message is the last thing in the trace exactly when something inside the
    [try] block raised. *)
Theorem execute_remotely_failure_shows_only_in_message
  (fuel : nat) (qc : Circuit) (draw_circuit : bool) (st st' : St')
  (o : outcome unit) :
  draw_circuit = false \/ draw w qc = Ret tt ->
  execute_remotely w fuel qc draw_circuit st = Some (o, st') ->
  o = Ret tt
  /\ ((exists e st2,
         remote_body w fuel qc draw_circuit
           (if draw_circuit then log (Draw qc) st else st)
         = Some (Raise e, st2))
      <-> last (trace st') (Draw qc)
          = Print [PStr "All devices are currently unavailable."]).
Proof.
  intros Hdraw H.
  assert (Hrun : try_except (remote_body w fuel qc draw_circuit)
                   (fun _ => print [PStr unavailable])
                   (if draw_circuit then log (Draw qc) st else st)
                 = Some (o, st')).
  { unfold execute_remotely, bind, call_draw, ret in H.
    destruct Hdraw as [-> | Hd]; [exact H |].
    destruct draw_circuit; [rewrite Hd in H |]; exact H. }
  clear H. unfold try_except in Hrun.
  destruct (remote_body w fuel qc draw_circuit
              (if draw_circuit then log (Draw qc) st else st))
    as [[[[] | e] st2] |] eqn:Hbody; [| | discriminate Hrun].
  - inversion Hrun; subst. split; [reflexivity |].
    destruct (remote_body_last_event _ _ _ _ _ Hbody)
      as (before & last_event & Htr & Hne).
    split.
    + intros (e & st2 & Hraise). discriminate Hraise.
    + intros Hlast. rewrite Htr, last_last in Hlast. contradiction.
  - unfold print in Hrun. inversion Hrun; subst. split; [reflexivity |].
    split.
    + intros _. unfold log. simpl. apply last_last.
    + intros _. exists e, st2. reflexivity.
Qed.


End TeachMeQMore.

(** A job that is queued, then running, then done, without drawing; and a
    provider without devices, with drawing. *)
Lemma execute_remotely_success_trace_witness :
  exists seen : list JobStatus,
    List.length seen = 2%nat
    /\ execute_remotely (Demo.sdk ["QUEUED"; "QUEUED"; "RUNNING"; "RUNNING"]) 5
         "bell" false Demo.start
       = Some (Ret tt,
               mkSt (trace Demo.start
                     ++ []
                     ++ [Print [PStr "Running on current least busy device: ";
                                PBackend "ibmqx4"]]
                     ++ polling_trace 0 seen
                     ++ [Print [PStatus (mkStatus "DONE")];
                         Print [PStr "experiment: ";
                                PResult "result of job on ibmqx4";
                                PCounts [("00", 506%Z); ("11", 518%Z)]]]
                     ++ [Plt (Bar (range 2) [506%Z; 518%Z] "center");
                         Plt (Xticks (range 2) ["00"; "11"]);
                         Plt Show])
                    (polls Demo.start + 2 * 2 + 2) (sleeps Demo.start + 2)).
Proof.
  apply (execute_remotely_success_trace
           (Demo.sdk ["QUEUED"; "QUEUED"; "RUNNING"; "RUNNING"]) 5 "bell" false
           Demo.start ["ibmqx4"; "ibmq_16_melbourne"] "ibmqx4" "job on ibmqx4"
           2 (mkStatus "DONE") "result of job on ibmqx4"
           [("00", 506%Z); ("11", 518%Z)]).
  - reflexivity.
  - reflexivity.
  - reflexivity.
  - intros Hf. discriminate Hf.
  - intros [| [| k]] Hk; [| | lia];
      (split; [eexists; split; [reflexivity | discriminate] |
               split; [eexists; reflexivity | reflexivity]]).
  - eexists. split; reflexivity.
  - reflexivity.
  - reflexivity.
  - reflexivity.
  - intros _. repeat split.
  - lia.
Defined.

Lemma execute_remotely_draws_first_or_not_at_all_witness :
  execute_remotely Demo.sdk_no_device 3 "bell" true Demo.start
  = Some (Ret tt,
          mkSt [Draw "bell";
                Print [PStr "All devices are currently unavailable."]] 0 0)
  /\ exists new,
       [Draw "bell"; Print [PStr "All devices are currently unavailable."]]
       = trace Demo.start ++ new
       /\ exists rest,
            new = Draw "bell" :: rest
            /\ Forall (fun e : TeachMeQ.Event string string string =>
                         is_draw e = false /\ is_plot e = false) rest.
Proof.
  assert (Hrun : execute_remotely Demo.sdk_no_device 3 "bell" true Demo.start
                 = Some (Ret tt,
                         mkSt [Draw "bell";
                               Print [PStr "All devices are currently unavailable."]]
                              0 0)) by reflexivity.
  split; [exact Hrun |].
  exact (execute_remotely_draws_first_or_not_at_all Demo.sdk_no_device 3
           "bell" true Demo.start _ _ Hrun).
Defined.

Lemma execute_remotely_failure_shows_only_in_message_witness :
  execute_remotely Demo.sdk_no_device 3 "bell" true Demo.start
  = Some (Ret tt,
          mkSt [Draw "bell";
                Print [PStr "All devices are currently unavailable."]] 0 0)
  /\ ((exists e st2,
         remote_body Demo.sdk_no_device 3 "bell" true
           (log (Draw "bell") Demo.start)
         = Some (Raise e, st2))
      <-> last ([Draw "bell";
                 Print [PStr "All devices are currently unavailable."]]
                : list (TeachMeQ.Event string string string))
               (Draw "bell")
          = Print [PStr "All devices are currently unavailable."]).
Proof.
  assert (Hrun : execute_remotely Demo.sdk_no_device 3 "bell" true Demo.start
                 = Some (Ret tt,
                         mkSt [Draw "bell";
                               Print [PStr "All devices are currently unavailable."]]
                              0 0)) by reflexivity.
  split; [exact Hrun |].
  exact (proj2 (execute_remotely_failure_shows_only_in_message
                  Demo.sdk_no_device 3 "bell" true Demo.start _ _
                  (or_intror eq_refl) Hrun)).
Defined.

(** ** [wine]: plotting, alignment of samples and labels, the notebook's call *)

Section WineMore.

Import Wine.

Context {R : Type}.

Variable w : Wine.Sklearn R.

(** A call of [wine] that returns, taken apart. *)
Lemma wine_returns_inv
  (training_size test_size n_features : Z) (plot_data : bool)
  (st st' : Wine.St R) (a c : Array R) (b d : Labels) :
  wine w training_size test_size n_features plot_data st
  = Some (Ret (a, b, c, d), st') ->
  exists (data : Array R) (target : Labels)
         (split_train split_test : Array R) (split_ltrain split_ltest : Labels)
         (std_scale pca minmax_scale : Transformer)
         (train1 train2 scaled_train test1 test2 scaled_test samples : Array R),
    load_wine w true = Ret (data, target)
    /\ train_test_split w data target test_size 42
       = Ret (split_train, split_test, split_ltrain, split_ltest)
    /\ StandardScaler_fit w split_train = Ret std_scale
    /\ std_scale split_train = Ret train1
    /\ std_scale split_test = Ret test1
    /\ PCA_fit w n_features train1 = Ret pca
    /\ pca train1 = Ret train2
    /\ pca test1 = Ret test2
    /\ np_append w train2 test2 0 = Ret samples
    /\ MinMaxScaler_fit w (-1, 1)%Z samples = Ret minmax_scale
    /\ minmax_scale train2 = Ret scaled_train
    /\ minmax_scale test2 = Ret scaled_test
    /\ a = slice_to training_size scaled_train
    /\ b = slice_to training_size split_ltrain
    /\ c = slice_to training_size scaled_test
    /\ d = slice_to training_size split_ltest
    /\ (if plot_data then plot w training_size a b else ret tt) st
       = Some (Ret tt, st').
Proof.
  intros H. unfold wine in H.
  rewrite bind_call in H.
  destruct (load_wine w true) as [[data target] | e] eqn:Hload;
    [| discriminate H].
  rewrite bind_call in H.
  destruct (train_test_split w data target test_size 42)
    as [[[[s_train s_test] l_train] l_test] | e] eqn:Hsplit; [| discriminate H].
  rewrite bind_call in H.
  destruct (StandardScaler_fit w s_train) as [std | e] eqn:Hstd;
    [| discriminate H].
  rewrite bind_call in H.
  destruct (std s_train) as [u1 | e] eqn:Hu1; [| discriminate H].
  rewrite bind_call in H.
  destruct (std s_test) as [t1 | e] eqn:Ht1; [| discriminate H].
  rewrite bind_call in H.
  destruct (PCA_fit w n_features u1) as [pca | e] eqn:Hpca; [| discriminate H].
  rewrite bind_call in H.
  destruct (pca u1) as [u2 | e] eqn:Hu2; [| discriminate H].
  rewrite bind_call in H.
  destruct (pca t1) as [t2 | e] eqn:Ht2; [| discriminate H].
  rewrite bind_call in H.
  destruct (np_append w u2 t2 0) as [samples | e] eqn:Happ; [| discriminate H].
  rewrite bind_call in H.
  destruct (MinMaxScaler_fit w (-1, 1)%Z samples) as [mm | e] eqn:Hmm;
    [| discriminate H].
  rewrite bind_call in H.
  destruct (mm u2) as [u3 | e] eqn:Hu3; [| discriminate H].
  rewrite bind_call in H.
  destruct (mm t2) as [t3 | e] eqn:Ht3; [| discriminate H].
  unfold bind in H.
  destruct ((if plot_data
             then plot w training_size (slice_to training_size u3)
                    (slice_to training_size l_train)
             else ret tt) st) as [[[[] | e] st1] |] eqn:Hplot;
    inversion H; subst; clear H.
  exists data, target, s_train, s_test, l_train, l_test, std, pca, mm,
    u1, u2, u3, t1, t2, t3, samples.
  splits; auto.
Qed.





(** *** The plot *)

Lemma mask_column_ret (a : Array R) (mask : list bool) (j : nat)
  (xs : list R) :
  mask_column a mask j = Ret xs ->
  List.length mask = List.length a
  /\ exists col, column j a = Some col /\ xs = select mask col.
Proof.
  unfold mask_column. intros H.
  destruct (Nat.eqb_spec (List.length mask) (List.length a)) as [Hlen | _];
    [| discriminate H].
  destruct (column j a) as [col |]; [| discriminate H].
  inversion H; subst. split; [exact Hlen |].
  exists col. split; reflexivity.
Qed.

Lemma column_short_row (j : nat) (a : Array R) (row : list R) :
  In row a -> (List.length row <= j)%nat -> column j a = None.
Proof.
  induction a as [| r a IH]; intros Hin Hlen; [contradiction |].
  simpl. destruct Hin as [-> | Hin].
  - destruct (nth_error row j) eqn:Hnth; [| reflexivity].
    apply nth_error_None in Hlen. congruence.
  - rewrite (IH Hin Hlen). destruct (nth_error r j); reflexivity.
Qed.

Lemma mask_column_short_row (a : Array R) (mask : list bool) (j : nat)
  (row : list R) :
  In row a -> (List.length row <= j)%nat ->
  exists msg, mask_column a mask j = Raise (IndexError msg).
Proof.
  intros Hin Hlen. unfold mask_column.
  rewrite (column_short_row j a row Hin Hlen).
  destruct (Nat.eqb (List.length mask) (List.length a)); eexists; reflexivity.
Qed.

Lemma labels_eq_length (l : Labels) (k : Z) :
  List.length (labels_eq l k) = List.length l.
Proof. unfold labels_eq. apply length_map. Qed.

Lemma mask_column_raise (a : Array R) (mask : list bool) (j : nat) (e : exn) :
  mask_column a mask j = Raise e -> exists msg, e = IndexError msg.
Proof.
  unfold mask_column. intros H.
  destruct (Nat.eqb (List.length mask) (List.length a));
    [destruct (column j a); [discriminate H |] |];
    inversion H; eexists; reflexivity.
Qed.

Ltac innermost H :=
  repeat match type of H with
         | context [match ?o with _ => _ end] =>
             lazymatch o with
             | context [match _ with _ => _ end] => fail
             | _ => destruct o eqn:?; try discriminate H
             end
         end.

(** X7.  With [plot_data] the data that [wine] returns are those it returns
    without, and a call that returns has drawn exactly this: one scatter
    plot for each of the classes 0, 1 and 2, in this order, of the first two
    features of the returned training samples of that class, then the title
    and [show].  Training samples of any other class are not drawn. *)
Theorem wine_plot_draws_the_three_classes
  (training_size test_size n_features : Z)
  (st st' : Wine.St R) (a c : Array R) (b d : Labels) :
  wine w training_size test_size n_features true st
  = Some (Ret (a, b, c, d), st') ->
  wine w training_size test_size n_features false st
  = Some (Ret (a, b, c, d), st)
  /\ List.length b = List.length a
  /\ exists col0 col1 : list R,
       column 0 a = Some col0
       /\ column 1 a = Some col1
       /\ st' = st
                ++ map (fun k =>
                          Scatter
                            (slice_to training_size (select (labels_eq b k) col0))
                            (slice_to training_size (select (labels_eq b k) col1)))
                       (range 3)
                ++ [Title "PCA dim. reduced Wine dataset"; PlotShow].
Proof.
  intros H.
  destruct (wine_returns_inv _ _ _ _ _ _ _ _ _ _ H)
    as (data & target & s_train & s_test & l_train & l_test & std & pca & mm
        & u1 & u2 & u3 & t1 & t2 & t3 & samples & Hload & Hsplit & Hstd & Hu1
        & Ht1 & Hpca & Hu2 & Ht2 & Happ & Hmm & Hu3 & Ht3 & Ha & Hb & Hc & Hd
        & Hplot).
  split.
  { unfold wine.
    rewrite bind_call, Hload, bind_call, Hsplit, bind_call, Hstd, bind_call,
      Hu1, bind_call, Ht1, bind_call, Hpca, bind_call, Hu2, bind_call, Ht2,
      bind_call, Happ, bind_call, Hmm, bind_call, Hu3, bind_call, Ht3.
    subst. reflexivity. }
  clear - Hplot.
  cbv beta iota delta [plot bind try_except_class Wine.call call_plot raise
                       ret for_each range map seq Z.of_nat Pos.of_succ_nat
                       Pos.succ] in Hplot.
  innermost Hplot.
  inversion Hplot; subst; clear Hplot.
  repeat match goal with
         | Hm : mask_column _ _ _ = Ret _ |- _ =>
             apply mask_column_ret in Hm;
             destruct Hm as (? & ? & ? & ?)
         end.
  repeat match goal with
         | H1 : column ?j ?x = Some ?u, H2 : column ?j ?x = Some ?v |- _ =>
             rewrite H1 in H2; inversion H2; clear H2
         end.
  subst.
  match goal with
  | Hl : List.length (labels_eq b _) = List.length a |- _ =>
      rewrite labels_eq_length in Hl; split; [exact Hl |]
  end.
  do 2 eexists. split; [eassumption | split; [eassumption |]].
  simpl. rewrite <- !app_assoc. reflexivity.
Qed.

(** X8.  Plotting needs two features: if a returned training sample has fewer
    than two, [wine] with [plot_data] ends in an [IndexError] after the
    import of matplotlib and before anything is drawn. *)
Theorem wine_plot_needs_two_features
  (training_size test_size n_features : Z)
  (st st0 : Wine.St R) (a c : Array R) (b d : Labels) (row : list R) :
  wine w training_size test_size n_features false st
  = Some (Ret (a, b, c, d), st0) ->
  import_matplotlib w = Ret tt ->
  In row a ->
  (List.length row < 2)%nat ->
  exists msg,
    wine w training_size test_size n_features true st
    = Some (Raise (IndexError msg), st).
Proof.
  intros H Himp Hin Hlen.
  destruct (wine_without_plot w _ _ _ _ _ _ H) as [_ Hplot].
  rewrite (Hplot true). simpl fst. simpl snd.
  unfold plot, bind, try_except_class, Wine.call, call_plot, raise, ret.
  rewrite Himp. simpl.
  destruct (mask_column a (labels_eq b 0) 0) as [xs | e] eqn:H0.
  - destruct (mask_column_short_row a (labels_eq b 0) 1 row Hin)
      as (msg & Hmsg); [lia |].
    rewrite Hmsg. exists msg. reflexivity.
  - destruct (mask_column_raise _ _ _ _ H0) as (msg & ->).
    exists msg. reflexivity.
Qed.

End WineMore.



Lemma wine_plot_draws_the_three_classes_witness :
  Wine.wine (Demo.sklearn (Ret tt)) 3 2 2 true []
  = Some (Ret ([[1; 2]; [3; 4]; [5; 6]], [0; 1; 2], [[7; 8]; [9; 10]], [0; 1])%Z,
          [Wine.Scatter [1] [2]; Wine.Scatter [3] [4]; Wine.Scatter [5] [6];
           Wine.Title "PCA dim. reduced Wine dataset"; Wine.PlotShow]%Z)
  /\ Wine.wine (Demo.sklearn (Ret tt)) 3 2 2 false []
     = Some (Ret ([[1; 2]; [3; 4]; [5; 6]], [0; 1; 2], [[7; 8]; [9; 10]],
                  [0; 1])%Z, []).
Proof.
  assert (Hrun : Wine.wine (Demo.sklearn (Ret tt)) 3 2 2 true []
                 = Some (Ret ([[1; 2]; [3; 4]; [5; 6]], [0; 1; 2],
                              [[7; 8]; [9; 10]], [0; 1])%Z,
                         [Wine.Scatter [1] [2]; Wine.Scatter [3] [4];
                          Wine.Scatter [5] [6];
                          Wine.Title "PCA dim. reduced Wine dataset";
                          Wine.PlotShow]%Z)) by reflexivity.
  split; [exact Hrun |].
  exact (proj1 (wine_plot_draws_the_three_classes (Demo.sklearn (Ret tt))
                  3 2 2 [] _ _ _ _ _ Hrun)).
Defined.

Lemma wine_plot_needs_two_features_witness :
  Wine.wine Demo2.sklearn_pca 3 2 1 false []
  = Some (Ret ([[1]; [3]; [5]], [0; 1; 2], [[7]; [9]], [0; 1])%Z, [])
  /\ In [1%Z] [[1]; [3]; [5]]%Z
  /\ exists msg,
       Wine.wine Demo2.sklearn_pca 3 2 1 true []
       = Some (Raise (Wine.IndexError msg), []).
Proof.
  assert (Hrun : Wine.wine Demo2.sklearn_pca 3 2 1 false []
                 = Some (Ret ([[1]; [3]; [5]], [0; 1; 2], [[7]; [9]],
                              [0; 1])%Z, [])) by reflexivity.
  assert (Hin : In [1%Z] [[1]; [3]; [5]]%Z) by (left; reflexivity).
  split; [exact Hrun | split; [exact Hin |]].
  apply (wine_plot_needs_two_features Demo2.sklearn_pca 3 2 1 [] []
           _ _ _ _ [1%Z] Hrun eq_refl Hin).
  simpl. lia.
Defined.

(** ** Tomography: the inner product, the measurement matrix, the
    reconstruction *)

Section TomographyMore.

Import Tomography.

Local Open Scope Q_scope.

#[local] Existing Instance Ceq_equiv.
#[local] Existing Instance Cadd_proper.
#[local] Existing Instance Cmul_proper.




Ltac literal P := let v := eval vm_compute in P in change P with v.



(** *** Shapes *)

Lemma transpose_nrows (A : Matrix) : nrows (transpose A) = ncols A.
Proof. unfold transpose, nrows. rewrite length_map, length_seq. reflexivity. Qed.

Lemma transpose_rows (A : Matrix) :
  Forall (fun r => List.length r = nrows A) (transpose A).
Proof.
  unfold transpose. apply Forall_forall. intros r Hr.
  apply in_map_iff in Hr as (j & <- & _). apply length_map.
Qed.

Lemma rows_rectangular (A : Matrix) (n : nat) :
  Forall (fun r => List.length r = n) A -> rectangular A = true.
Proof.
  intros H. unfold rectangular, ncols.
  destruct A as [| r A]; [reflexivity |].
  inversion H as [| ? ? Hr HA]; subst.
  apply forallb_forall. intros r' Hin. apply Nat.eqb_eq.
  simpl. destruct Hin as [<- | Hin]; [reflexivity |].
  rewrite Forall_forall in HA. apply HA. assumption.
Qed.

Lemma transpose_rectangular (A : Matrix) : rectangular (transpose A) = true.
Proof. apply rows_rectangular with (nrows A). apply transpose_rows. Qed.

Lemma transpose_ncols (A : Matrix) :
  (0 < ncols A)%nat -> ncols (transpose A) = nrows A.
Proof.
  intros Hpos.
  pose proof (transpose_rows A) as Hrows.
  pose proof (transpose_nrows A) as Hn.
  unfold ncols at 1. destruct (transpose A) as [| r T].
  - unfold nrows in Hn. simpl in Hn. lia.
  - inversion Hrows; subst. assumption.
Qed.

Lemma conj_nrows (A : Matrix) : nrows (conj A) = nrows A.
Proof. unfold conj, nrows. apply length_map. Qed.

Lemma conj_ncols (A : Matrix) : ncols (conj A) = ncols A.
Proof. unfold conj, ncols. destruct A; simpl; [reflexivity | apply length_map]. Qed.

(** X11.  [HS_product] asks only that the two arrays have the same number of
    rows: then it has a value, also when they differ in their number of
    columns; otherwise numpy's [@] rejects them. *)
Theorem HS_product_needs_equal_row_counts (A B : Matrix) :
  rectangular A = true ->
  (0 < ncols B)%nat ->
  (HS_product A B <> None <-> nrows A = nrows B).
Proof.
  intros HA HB. unfold HS_product, py_matmul.
  rewrite transpose_rectangular, HA, transpose_ncols, conj_nrows
    by (rewrite conj_ncols; exact HB).
  simpl. destruct (Nat.eqb_spec (nrows B) (nrows A)) as [Heq | Hne].
  - split; [intros _; symmetry; exact Heq | intros _ Hf; discriminate Hf].
  - split; [intros Hf; exfalso; apply Hf; reflexivity |].
    intros Heq. exfalso. apply Hne. symmetry. exact Heq.
Qed.

(** *** What [M] computes *)



(** *** The reconstruction cell *)

Lemma py_matmul_some (A B P : Matrix) :
  py_matmul A B = Some P ->
  P = matmul A B
  /\ rectangular A = true /\ rectangular B = true /\ ncols A = nrows B.
Proof.
  unfold py_matmul. intros H.
  destruct (rectangular A) eqn:HA; [| discriminate H].
  destruct (rectangular B) eqn:HB; [| discriminate H].
  destruct (Nat.eqb_spec (ncols A) (nrows B)) as [Heq | _]; [| discriminate H].
  simpl in H. inversion H. auto.
Qed.

Lemma matmul_nrows (A B : Matrix) : nrows (matmul A B) = nrows A.
Proof. unfold matmul, nrows. apply length_map. Qed.

Lemma matmul_ncols (A B : Matrix) :
  rectangular B = true -> (0 < nrows A)%nat -> ncols (matmul A B) = ncols B.
Proof.
  intros HB HA. unfold matmul, ncols at 1.
  destruct A as [| r A]; [unfold nrows in HA; simpl in HA; lia |].
  simpl. apply vecmat_length. apply rectangular_rows.
  rewrite HB. apply Nat.eqb_refl.
Qed.

Lemma gauss_jordan_length (steps : nat) :
  forall j done rest rows,
    gauss_jordan steps j done rest = Some rows ->
    List.length rows = (List.length done + steps)%nat.
Proof.
  induction steps as [| steps IH]; intros j done rest rows H; simpl in H.
  - inversion H; subst. lia.
  - destruct (find_pivot j rest) as [[p others] |]; [| discriminate H].
    apply IH in H. rewrite H, length_app, length_map, <- Nat.add_assoc.
    reflexivity.
Qed.

Lemma inv_nrows (A B : Matrix) : inv A = Some B -> nrows B = nrows A.
Proof.
  unfold inv. intros H.
  destruct (rectangular A && Nat.eqb (ncols A) (nrows A)); [| discriminate H].
  destruct (gauss_jordan (nrows A) 0 [] (augment A (identity (nrows A))))
    as [rows |] eqn:Hgj; [| discriminate H].
  inversion H. unfold nrows at 1. rewrite length_map.
  apply gauss_jordan_length in Hgj. simpl in Hgj. exact Hgj.
Qed.

Lemma chunks_shape (c : nat) :
  forall k v, List.length v = (k * c)%nat ->
    List.length (chunks k c v) = k
    /\ Forall (fun r => List.length r = c) (chunks k c v).
Proof.
  induction k as [| k IH]; intros v Hv; simpl.
  - split; constructor.
  - destruct (IH (skipn c v)) as [Hlen Hrows].
    + rewrite length_skipn. simpl in Hv. lia.
    + split; [simpl; congruence |].
      constructor; [| assumption].
      rewrite length_firstn. simpl in Hv. lia.
Qed.

(** X14.  The reconstruction cell reshapes to [(4, 4)]: it gives a result only
    for a matrix [M] of 16 columns and a vector [p] with one entry for each
    row of [M], and the result has 4 rows of 4 entries. *)
Theorem rho_bell_needs_sixteen_columns (M0 : Matrix) (p : Vector)
  (out : Matrix) :
  rho_bell M0 p = Some out ->
  ncols M0 = 16%nat
  /\ List.length p = nrows M0
  /\ List.length out = 4%nat
  /\ Forall (fun r => List.length r = 4%nat) out.
Proof.
  unfold rho_bell. intros H.
  destruct (py_matmul (transpose (conj M0)) M0) as [G |] eqn:HG;
    [| discriminate H].
  destruct (inv G) as [Gi |] eqn:HGi; [| discriminate H].
  destruct (py_matmul Gi (transpose (conj M0))) as [L |] eqn:HL;
    [| discriminate H].
  destruct (py_matvec L p) as [v |] eqn:Hv; [| discriminate H].
  apply py_matmul_some in HG as (-> & HrT & HrM & HcT).
  apply py_matmul_some in HL as (-> & HrGi & _ & HcGi).
  apply inv_nrows in HGi. rewrite matmul_nrows, transpose_nrows, conj_ncols in HGi.
  unfold py_matvec in Hv.
  destruct (rectangular (matmul Gi (transpose (conj M0)))); [| discriminate Hv].
  destruct (Nat.eqb_spec (ncols (matmul Gi (transpose (conj M0))))
              (List.length p)) as [Hp | _]; [| discriminate Hv].
  simpl in Hv. inversion Hv; subst v; clear Hv.
  unfold reshape in H.
  destruct (Nat.eqb_spec (List.length (matvec (matmul Gi (transpose (conj M0))) p))
              (4 * 4)) as [Hlen | _]; [| discriminate H].
  inversion H; subst out; clear H.
  assert (Hrows : nrows Gi = 16%nat).
  { unfold matvec in Hlen. rewrite length_map in Hlen.
    fold (nrows (matmul Gi (transpose (conj M0)))) in Hlen.
    rewrite matmul_nrows in Hlen. exact Hlen. }
  destruct (chunks_shape 4 4 _ Hlen) as [Hout Hshape].
  splits; try assumption.
  - congruence.
  - rewrite <- Hp, matmul_ncols, HcT; [reflexivity | exact HrT | lia].
Qed.

(** *** Reconstruction from measured frequencies *)









End TomographyMore.

Lemma HS_product_needs_equal_row_counts_witness :
  Tomography.rectangular Tomography.X = true
  /\ (0 < Tomography.ncols [[Tomography.C1; Tomography.C0; Tomography.C0];
                            [Tomography.C0; Tomography.C1; Tomography.C0]])%nat
  /\ Tomography.HS_product Tomography.X
       [[Tomography.C1; Tomography.C0; Tomography.C0];
        [Tomography.C0; Tomography.C1; Tomography.C0]] <> None.
Proof.
  assert (Hpos : (0 < Tomography.ncols
                         [[Tomography.C1; Tomography.C0; Tomography.C0];
                          [Tomography.C0; Tomography.C1; Tomography.C0]])%nat)
    by (unfold Tomography.ncols; simpl; lia).
  split; [reflexivity | split; [exact Hpos |]].
  apply (proj2 (HS_product_needs_equal_row_counts Tomography.X
                  [[Tomography.C1; Tomography.C0; Tomography.C0];
                   [Tomography.C0; Tomography.C1; Tomography.C0]]
                  eq_refl Hpos)).
  reflexivity.
Defined.

Lemma rho_bell_needs_sixteen_columns_witness :
  Tomography.rho_bell Tomography.M_2
    (Tomography.matvec Tomography.M_2 (Tomography.flatten Demo.bell))
  = Some Demo.bell
  /\ Tomography.ncols Tomography.M_2 = 16%nat
  /\ List.length (Tomography.matvec Tomography.M_2
                    (Tomography.flatten Demo.bell))
     = Tomography.nrows Tomography.M_2.
Proof.
  assert (Hrun : Tomography.rho_bell Tomography.M_2
                   (Tomography.matvec Tomography.M_2
                      (Tomography.flatten Demo.bell))
                 = Some Demo.bell) by (vm_compute; reflexivity).
  split; [exact Hrun |].
  destruct (rho_bell_needs_sixteen_columns _ _ _ Hrun) as (H16 & Hp & _).
  split; assumption.
Defined.


(** ** The cells of [IBMQ_setup.ipynb] that list the backends *)

Section SetupFacts.

Import Cells.

Context {Backend : Type}.

Variable p : Provider Backend.

Lemma for_each_print (bs : list Backend) :
  forall st : Out Backend,
    for_each bs (fun backend => print (LBackend backend)) st
    = Some (Ret tt, st ++ map LBackend bs).
Proof.
  induction bs as [| b bs IH]; intros st; simpl.
  - unfold ret. rewrite app_nil_r. reflexivity.
  - unfold bind, print. rewrite IH, <- app_assoc. reflexivity.
Qed.

(** X16.  The listing cell prints one line for each backend that the provider
    answers, in the provider's order, and nothing for an empty list. *)
Theorem list_backends_prints_each_backend
  (st : Out Backend) (bs : list Backend) :
  backends p = Ret bs ->
  list_backends p st = Some (Ret tt, st ++ map LBackend bs)
  /\ List.length (st ++ map LBackend bs)
     = (List.length st + List.length bs)%nat.
Proof.
  intros H. unfold list_backends, bind, Cells.call. rewrite H.
  split; [apply for_each_print |].
  rewrite length_app, length_map. reflexivity.
Qed.

(** X17.  [IBMQ.backends()[0]]: with a provider that lists no backend the cell
    ends in an [IndexError] and prints nothing; otherwise it takes the first
    backend and prints its configuration. *)
Theorem first_backend_needs_a_backend (st : Out Backend) (bs : list Backend) :
  backends p = Ret bs ->
  (bs = [] ->
   first_backend p st
   = Some (Raise (Exn ["IndexError"; "LookupError"; "Exception"; "BaseException"]
                      "list index out of range"), st))
  /\ (forall b rest c,
        bs = b :: rest -> configuration p b = Ret c ->
        first_backend p st = Some (Ret b, st ++ [LConfig c]))
  /\ ((exists b st', first_backend p st = Some (Ret b, st')) -> bs <> []).
Proof.
  intros H. unfold first_backend, bind, Cells.call, print, ret. rewrite H.
  splits.
  - intros ->. reflexivity.
  - intros b rest c -> Hc. simpl. rewrite Hc. reflexivity.
  - intros (b & st' & Hrun) ->. discriminate Hrun.
Qed.

Lemma getitem_missing (d : Config) (key : string) :
  (forall v, ~ In (key, v) d) ->
  getitem d key
  = Raise (Exn ["KeyError"; "LookupError"; "Exception"; "BaseException"] key).
Proof.
  induction d as [| [k v] d IH]; intros H; simpl; [reflexivity |].
  destruct (String.eqb_spec k key) as [-> | Hne].
  - exfalso. apply (H v). left. reflexivity.
  - apply IH. intros v' Hin. apply (H v'). right. exact Hin.
Qed.

Lemma getitem_present (d : Config) (key v : string) :
  NoDup (map fst d) -> In (key, v) d -> getitem d key = Ret v.
Proof.
  induction d as [| [k v'] d IH]; intros Hnd Hin; [contradiction |].
  simpl in *. inversion Hnd as [| ? ? Hnotin Hnd']; subst.
  destruct (String.eqb_spec k key) as [-> | Hne].
  - destruct Hin as [Heq | Hin]; [congruence |].
    exfalso. apply Hnotin. apply in_map_iff. exists (key, v). auto.
  - destruct Hin as [Heq | Hin]; [congruence |].
    apply IH; assumption.
Qed.

(** X18.  The cell that prints the specification reads the ["url"] entry of the
    configuration: a configuration without that key ends the cell in a
    [KeyError] with nothing printed; with the key, the cell prints the
    sentence with the URL. *)
Theorem specification_needs_a_url
  (st : Out Backend) (backend_0 : Backend) (c : Config) :
  configuration p backend_0 = Ret c ->
  NoDup (map fst c) ->
  ((forall url, ~ In ("url", url) c) ->
   specification p backend_0 st
   = Some (Raise (Exn ["KeyError"; "LookupError"; "Exception"; "BaseException"]
                      "url"), st))
  /\ (forall url,
        In ("url", url) c ->
        specification p backend_0 st
        = Some (Ret tt,
                st ++ [LStr ("Go check its specification at " ++ url)%string])).
Proof.
  intros Hc Hnd. unfold specification, bind, Cells.call, print. rewrite Hc.
  split.
  - intros Hmiss. rewrite (getitem_missing c "url" Hmiss). reflexivity.
  - intros url Hin. rewrite (getitem_present c "url" url Hnd Hin). reflexivity.
Qed.

End SetupFacts.

Lemma list_backends_prints_each_backend_witness :
  Cells.backends (Cells.provider ["ibmqx4"; "ibmqx5"; "ibmq_qasm_simulator"])
  = Ret ["ibmqx4"; "ibmqx5"; "ibmq_qasm_simulator"]
  /\ Cells.list_backends
       (Cells.provider ["ibmqx4"; "ibmqx5"; "ibmq_qasm_simulator"]) []
     = Some (Ret tt,
             [Cells.LBackend "ibmqx4"; Cells.LBackend "ibmqx5";
              Cells.LBackend "ibmq_qasm_simulator"]).
Proof.
  split; [reflexivity |].
  exact (proj1 (list_backends_prints_each_backend
                  (Cells.provider ["ibmqx4"; "ibmqx5"; "ibmq_qasm_simulator"])
                  [] _ eq_refl)).
Defined.

Lemma first_backend_needs_a_backend_witness :
  Cells.backends (Cells.provider []) = Ret []
  /\ Cells.first_backend (Cells.provider []) []
     = Some (Raise (Exn ["IndexError"; "LookupError"; "Exception";
                         "BaseException"] "list index out of range"), []).
Proof.
  split; [reflexivity |].
  exact (proj1 (first_backend_needs_a_backend (Cells.provider []) [] []
                  eq_refl) eq_refl).
Defined.

Lemma specification_needs_a_url_witness :
  Cells.specification (Cells.provider ["ibmqx4"]) "ibmqx4" []
  = Some (Ret tt,
          [Cells.LStr "Go check its specification at https://ibm.biz/qiskit-ibmqx4"])
  /\ Cells.specification (Cells.provider ["ibmq_qasm_simulator"])
       "ibmq_qasm_simulator" []
     = Some (Raise (Exn ["KeyError"; "LookupError"; "Exception";
                         "BaseException"] "url"), []).
Proof.
  split.
  - apply (proj2 (specification_needs_a_url (Cells.provider ["ibmqx4"]) []
                    "ibmqx4"
                    [("name", "ibmqx4"); ("url", "https://ibm.biz/qiskit-ibmqx4")]
                    eq_refl
                    ltac:(repeat constructor; simpl; intuition discriminate))).
    right. left. reflexivity.
  - apply (proj1 (specification_needs_a_url
                    (Cells.provider ["ibmq_qasm_simulator"]) []
                    "ibmq_qasm_simulator" [("name", "ibmq_qasm_simulator")]
                    eq_refl
                    ltac:(repeat constructor; simpl; intuition discriminate))).
    intros url [Hin | []]. discriminate Hin.
Defined.
